(** * diffpy.utils.parsers.loaddata: a shallow embedding

    The module [loaddata.py] has two readers of text data files:
    - [loadData], which streams a file line by line and hands the first
      data block to [numpy.loadtxt];
    - [TextDataLoader], whose [_findDataBlocks] classifies all lines and
      words of a file with numpy record arrays and cuts the file into
      (header, dataset) pairs.

    Conventions of the embedding.
    - Text is ASCII: a file is a [string], one character per byte, so that
      [len(line)] of the raw line and of the decoded line agree.
    - [float] is the Python builtin; it is a parameter [pyfloat] of the
      development, with values in an abstract type [F].
    - Python exceptions are the [Raise] results of a small error monad.
    - numpy arrays of one dimension are lists; the broadcasting rules that
      the code relies on are written out in [Np]. *)

From stdpp Require Import gmap strings list.
From Stdlib Require Import ZArith Ascii String Lia.

Local Open Scope string_scope.
Local Open Scope Z_scope.

(** ** Exceptions *)

Inductive exn := ValueError | IndexError | AssertionError.

Inductive result (A : Type) :=
| Ok (a : A)
| Raise (e : exn).
Arguments Ok {A} a.
Arguments Raise {A} e.

#[global] Instance exn_eq_dec : EqDecision exn.
Proof. solve_decision. Defined.

#[global] Instance result_ret : MRet result := fun _ a => Ok a.
#[global] Instance result_bind : MBind result := fun _ _ f m =>
  match m with Ok a => f a | Raise e => Raise e end.

Definition returns {A} (m : result A) : bool :=
  match m with Ok _ => true | Raise _ => false end.

(** ** Python strings and lists *)

Module Py.

(** [str.isspace] on ASCII characters: TAB, LF, VT, FF, CR, the four
    separators FS GS RS US, and the space. *)
Definition isspace (c : ascii) : bool :=
  let n := N_of_ascii c in
  (((9 <=? n) && (n <=? 13)) || ((28 <=? n) && (n <=? 32)))%N.

Fixpoint lstrip (s : string) : string :=
  match s with
  | String c s' => if isspace c then lstrip s' else s
  | EmptyString => EmptyString
  end.

Fixpoint rstrip (s : string) : string :=
  match s with
  | String c s' =>
      match rstrip s' with
      | EmptyString => if isspace c then EmptyString else String c EmptyString
      | r => String c r
      end
  | EmptyString => EmptyString
  end.

Definition strip (s : string) : string := rstrip (lstrip s).

Definition nonempty (s : string) : bool :=
  match s with EmptyString => false | _ => true end.

Definition rev_string (s : list ascii) : string :=
  string_of_list_ascii (List.rev s).

(** [s.split()]: maximal runs of non-space characters. [cur] is the
    current word, reversed. *)
Fixpoint split_ws_aux (cur : list ascii) (s : string) : list string :=
  match s with
  | EmptyString =>
      match cur with [] => [] | _ => [rev_string cur] end
  | String c s' =>
      if isspace c then
        match cur with
        | [] => split_ws_aux [] s'
        | _ => rev_string cur :: split_ws_aux [] s'
        end
      else split_ws_aux (c :: cur) s'
  end.

Definition split_ws (s : string) : list string := split_ws_aux [] s.

(** [s.split(sep)] for a non-empty [sep]: cut at the non-overlapping
    occurrences of [sep], leftmost first. [skip] counts the characters of
    a matched separator still to be dropped. *)
Fixpoint split_sep_aux (sep : string) (skip : nat) (cur : list ascii)
    (s : string) : list string :=
  match s with
  | EmptyString => [rev_string cur]
  | String c s' =>
      match skip with
      | S k => split_sep_aux sep k cur s'
      | O =>
          if String.prefix sep s
          then rev_string cur :: split_sep_aux sep (String.length sep - 1) [] s'
          else split_sep_aux sep 0 (c :: cur) s'
      end
  end.

(** [s.split(sep)]; the empty separator is a [ValueError]. *)
Definition split_sep (sep s : string) : result (list string) :=
  match sep with
  | EmptyString => Raise ValueError
  | _ => Ok (split_sep_aux sep 0 [] s)
  end.

(** [s.split(delimiter)] where [delimiter] may be [None]. *)
Definition split (delimiter : option string) (s : string) : result (list string) :=
  match delimiter with
  | None => Ok (split_ws s)
  | Some d => split_sep d s
  end.

(** The lines of a stream, each with its newline, as [readlines] and the
    iteration over a file give them. *)
Fixpoint readlines_aux (cur : list ascii) (s : string) : list string :=
  match s with
  | EmptyString =>
      match cur with [] => [] | _ => [rev_string cur] end
  | String c s' =>
      if Ascii.eqb c "010"%char
      then rev_string (c :: cur) :: readlines_aux [] s'
      else readlines_aux (c :: cur) s'
  end.

Definition readlines (s : string) : list string := readlines_aux [] s.

(** [''.join(l)] *)
Definition join (l : list string) : string := String.concat "" l.

(** [l[i]] with Python's negative indices. *)
Definition index {A} (l : list A) (i : Z) : result A :=
  let n := Z.of_nat (List.length l) in
  let j := if i <? 0 then i + n else i in
  if (0 <=? j) && (j <? n)
  then match l !! Z.to_nat j with Some x => Ok x | None => Raise IndexError end
  else Raise IndexError.

(** [l[a:b]] for non-negative [a], [b]. *)
Definition slice {A} (a b : nat) (l : list A) : list A :=
  take (b - a) (drop a l).

(** [max(l)] and [min(l)]; a [ValueError] on the empty sequence. *)
Definition max (l : list Z) : result Z :=
  match l with
  | [] => Raise ValueError
  | x :: l' => Ok (fold_left Z.max l' x)
  end.

Definition min (l : list Z) : result Z :=
  match l with
  | [] => Raise ValueError
  | x :: l' => Ok (fold_left Z.min l' x)
  end.

(** [while words and not words[-1].strip(): words.pop(-1)] *)
Fixpoint pop_blank (words : list string) : list string :=
  match words with
  | [] => []
  | w :: ws =>
      match pop_blank ws with
      | [] => if nonempty (strip w) then [w] else []
      | r => w :: r
      end
  end.

(** [tuple < tuple] on pairs of integers. *)
Definition pair_ltb (a b : Z * Z) : bool :=
  (a.1 <? b.1) || ((a.1 =? b.1) && (a.2 <? b.2)).

End Py.

(** ** loadData *)

(** A value of the header dictionary: a float when the text converts,
    the text itself otherwise. *)
Inductive hvalue (F : Type) :=
| HFloat (x : F)
| HStr (s : string).
Arguments HFloat {F} x.
Arguments HStr {F} s.

(** What [loadData] returns: the header dictionary when [headers] is set,
    else the array, as its list of rows. *)
Inductive loaded (F : Type) :=
| Headers (hdata : gmap string (hvalue F))
| Array (rows : list (list F)).
Arguments Headers {F} hdata.
Arguments Array {F} rows.

(** The arguments of [loadData] other than the file. [delimiter] and
    [usecols] are the two entries of [kwargs] that the function reads;
    [None] stands for an absent keyword. *)
Record largs := {
  minrows : Z;
  headers : bool;
  hdel : string;
  hignore : option (list string);
  delimiter : option string;
  usecols : option (list Z)
}.

(** The variables of the scanning loop. [ncvblock] is meaningful only
    while [start] is set. *)
Record scan (F : Type) := {
  hdata : gmap string (hvalue F);
  fpos : nat * nat;
  start : option nat;
  ncvblock : Z * Z;
  nrows : nat
}.
Arguments hdata {F} s.
Arguments fpos {F} s.
Arguments start {F} s.
Arguments ncvblock {F} s.
Arguments nrows {F} s.

Section LoadData.

Context {F : Type}.
(** [float(s)], [None] when it raises. *)
Variable pyfloat : string -> option F.
(** [numpy.loadtxt] reading the rest of a stream, with the keywords
    [delimiter] and [usecols]. *)
Variable loadtxt : string -> option string -> list Z -> result (list (list F)).

Definition isfloat (s : string) : bool :=
  match pyfloat s with Some _ => true | None => false end.

(** [mincv]: the least acceptable (columns, values) pair. *)
Definition mincv_of (usecols : option (list Z)) : result (Z * Z) :=
  match usecols with
  | None => Ok (1, 1)
  | Some cols =>
      lo ← Py.min cols;
      hi ← Py.max cols;
      Ok (Z.max (- lo) (hi + 1), Z.of_nat (List.length (remove_dups cols)))
  end.

(** [[float(w) for w in ws]]; the first failure is a [ValueError]. *)
Fixpoint floats (ws : list string) : result (list F) :=
  match ws with
  | [] => Ok []
  | w :: ws' =>
      match pyfloat w with
      | None => Raise ValueError
      | Some x => xs ← floats ws'; Ok (x :: xs)
      end
  end.

(** [[float(words[i]) for i in cols]] *)
Fixpoint floats_at (words : list string) (cols : list Z) : result (list F) :=
  match cols with
  | [] => Ok []
  | i :: cols' =>
      w ← Py.index words i;
      match pyfloat w with
      | None => Raise ValueError
      | Some x => xs ← floats_at words cols'; Ok (x :: xs)
      end
  end.

(** The body of the [try] of [countcolumnsvalues]. *)
Definition countcolumnsvalues_try (a : largs) (line : string) : result (Z * Z) :=
  words ← Py.split (delimiter a) line;
  let words := Py.pop_blank words in
  let nc := Z.of_nat (List.length words) in
  vs ← match usecols a with
       | Some cols => floats_at words cols
       | None => floats words
       end;
  Ok (nc, Z.of_nat (List.length vs)).

(** Both exceptions that the body can raise are caught. *)
Definition countcolumnsvalues (a : largs) (line : string) : Z * Z :=
  match countcolumnsvalues_try a line with
  | Ok ncv => ncv
  | Raise _ => (0, 0)
  end.

(** The test of one ignore tag against the key. *)
Definition has_tag (key tag : string) : bool :=
  (String.length tag <=? String.length key)%nat
  && String.eqb (String.substring 0 (String.length tag) key) tag.

(** Lines 97-114: the name and value of a header line, when [flag] stays
    true. *)
Definition header_pair (a : largs) (dline : string) : result (option (string * string)) :=
  hpair ← Py.split_sep (hdel a) dline;
  match hpair with
  | [h0; h1] =>
      let h0 := Py.strip h0 in
      let h1 := Py.strip h1 in
      if negb (Py.nonempty h0) || negb (Py.nonempty h1) then Ok None
      else
        match hignore a with
        | Some tags =>
            if existsb (has_tag h0) tags then Ok None else Ok (Some (h0, h1))
        | None => Ok (Some (h0, h1))
        end
  | _ => Ok None
  end.

(** Lines 116-122. *)
Definition header_value (v : string) : hvalue F :=
  match pyfloat v with
  | Some x => HFloat x
  | None => HStr v
  end.

Definition add_header (a : largs) (dline : string)
    (h : gmap string (hvalue F)) : result (gmap string (hvalue F)) :=
  if headers a then
    p ← header_pair a dline;
    match p with
    | Some (name, value) => Ok (<[name := header_value value]> h)
    | None => Ok h
    end
  else Ok h.

(** The loop over the lines of the file, lines 92-139. It returns the
    variables at the end of the loop and the lines that were not read. *)
Fixpoint scan_lines (a : largs) (mincv : Z * Z) (st : scan F)
    (lines : list string) : result (scan F * list string) :=
  match lines with
  | [] => Ok (st, [])
  | line :: rest =>
      h ← add_header a line (hdata st);
      let fpos' := ((fpos st).2, ((fpos st).2 + String.length line)%nat) in
      let ncv := countcolumnsvalues a line in
      if Py.pair_ltb ncv mincv then
        scan_lines a mincv
          {| hdata := h; fpos := fpos'; start := None;
             ncvblock := ncvblock st; nrows := nrows st |} rest
      else
        let fresh :=
          match start st with
          | None => true
          | Some _ => negb (bool_decide (ncv = ncvblock st))
          end in
        let ncvblock' := if fresh then ncv else ncvblock st in
        let nrows0 := if fresh then O else nrows st in
        let start' := if fresh then Some fpos'.1 else start st in
        let st' := {| hdata := h; fpos := fpos'; start := start';
                      ncvblock := ncvblock'; nrows := S nrows0 |} in
        if minrows a <=? Z.of_nat (S nrows0) then Ok (st', rest)
        else scan_lines a mincv st' rest
  end.

Definition scan0 : scan F :=
  {| hdata := ∅; fpos := (O, O); start := None; ncvblock := (0, 0); nrows := O |}.

(** [fid.seek(start)]: the stream from byte [start] on. *)
Fixpoint seek (n : nat) (s : string) : string :=
  match n, s with
  | S k, String _ s' => seek k s'
  | _, _ => s
  end.

(** [list(range(n))] *)
Definition range (n : Z) : list Z := List.map Z.of_nat (seq 0 (Z.to_nat n)).

Definition loadData (file : string) (a : largs) : result (loaded F) :=
  mincv ← mincv_of (usecols a);
  '(st, _) ← scan_lines a mincv scan0 (Py.readlines file);
  if headers a then Ok (Headers (hdata st))
  else
    match start st with
    | None => Ok (Array [])
    | Some pos =>
        let cols := match usecols a with
                    | Some cols => cols
                    | None => range (ncvblock st).1
                    end in
        rows ← loadtxt (seek pos file) (delimiter a) cols;
        Ok (Array rows)
    end.

End LoadData.

(** ** The numpy operations used by [_findDataBlocks] *)

Module Np.

(** Binary operations on one-dimensional arrays broadcast: the shapes
    must be equal, or one of them is 1. *)
Definition broadcast2 {A B C} (f : A -> B -> C) (xs : list A) (ys : list B)
    : result (list C) :=
  if (List.length xs =? List.length ys)%nat then Ok (zip_with f xs ys)
  else
    match xs, ys with
    | [x], _ => Ok (List.map (f x) ys)
    | _, [y] => Ok (List.map (fun x => f x y) xs)
    | _, _ => Raise ValueError
    end.

Definition band := broadcast2 andb.
Definition bor := broadcast2 orb.
Definition neq := broadcast2 (fun a b : nat => negb (a =? b)%nat).
Definition sub := broadcast2 Z.sub.

(** [a.cumsum()] *)
Fixpoint cumsum_from (acc : nat) (l : list nat) : list nat :=
  match l with
  | [] => []
  | x :: l' => (acc + x)%nat :: cumsum_from (acc + x)%nat l'
  end.

Definition cumsum (l : list nat) : list nat := cumsum_from 0 l.

(** [numpy.nonzero(a)[0]] *)
Fixpoint nonzero_from (i : nat) (l : list bool) : list nat :=
  match l with
  | [] => []
  | b :: l' => if b then i :: nonzero_from (S i) l' else nonzero_from (S i) l'
  end.

Definition nonzero (l : list bool) : list nat := nonzero_from 0 l.

(** [a[idxs] = v] with an array of non-negative indices. *)
Fixpoint put {A} (idxs : list nat) (v : A) (a : list A) : result (list A) :=
  match idxs with
  | [] => Ok a
  | i :: idxs' =>
      if (i <? List.length a)%nat then put idxs' v (<[i := v]> a)
      else Raise IndexError
  end.

(** [a[idxs]] with an array of non-negative indices. *)
Fixpoint get {A} (a : list A) (idxs : list nat) : result (list A) :=
  match idxs with
  | [] => Ok []
  | i :: idxs' =>
      match a !! i with
      | Some x => xs ← get a idxs'; Ok (x :: xs)
      | None => Raise IndexError
      end
  end.

(** [a[mask]] with a boolean array of the length of [a]. *)
Definition mask {A} (a : list A) (m : list bool) : result (list A) :=
  if (List.length a =? List.length m)%nat
  then Ok (List.map fst (List.filter snd (zip a m)))
  else Raise IndexError.

(** [a[:-1]] and [a[-1:]] *)
Definition init {A} (a : list A) : list A := take (List.length a - 1) a.
Definition last1 {A} (a : list A) : list A := drop (List.length a - 1) a.

(** [a[i:j:step]] for non-negative [i], [j] and a positive [step]. *)
Fixpoint every {A} (step k : nat) (a : list A) : list A :=
  match a with
  | [] => []
  | x :: a' =>
      match k with
      | O => x :: every step (step - 1) a'
      | S k' => every step k' a'
      end
  end.

Definition strided {A} (i j step : nat) (a : list A) : result (list A) :=
  match step with
  | O => Raise ValueError
  | _ => Ok (every step 0 (Py.slice i j a))
  end.

(** [numpy.reshape(a, (-1, n))] *)
Fixpoint chunks {A} (fuel n : nat) (a : list A) : list (list A) :=
  match fuel, a with
  | S fuel', _ :: _ => take n a :: chunks fuel' n (drop n a)
  | _, _ => []
  end.

Definition reshape {A} (a : list A) (n : nat) : result (list (list A)) :=
  match n with
  | O => Raise ValueError
  | _ =>
      if (List.length a mod n =? 0)%nat
      then Ok (chunks (List.length a) n a)
      else Raise ValueError
  end.

(** [trow[:] = rhs] into a row of [m] cells. *)
Definition assign {A} (m : nat) (rhs : list A) : result (list A) :=
  if (List.length rhs =? m)%nat then Ok rhs
  else
    match rhs with
    | [x] => Ok (replicate m x)
    | _ => Raise ValueError
    end.

(** [tdata.transpose()] of an array of rows of [m] cells each. *)
Fixpoint heads {A} (rows : list (list A)) : list A :=
  match rows with
  | [] => []
  | (x :: _) :: rows' => x :: heads rows'
  | [] :: rows' => heads rows'
  end.

Fixpoint transpose {A} (m : nat) (rows : list (list A)) : list (list A) :=
  match m with
  | O => []
  | S m' => heads rows :: transpose m' (List.map (drop 1) rows)
  end.

(** [numpy.transpose([xs, ys])]: the two arrays make a 2 x k array only
    when they have one length; a ragged list is a [ValueError]. *)
Definition stack2 {A} (xs ys : list A) : result (list (A * A)) :=
  if (List.length xs =? List.length ys)%nat then Ok (zip xs ys)
  else Raise ValueError.

End Np.

(** ** TextDataLoader *)

Module TextDataLoader.

(** The attributes that [_findDataBlocks] reads. *)
Record loader := {
  minrows : Z;
  usecols : option (list Z)
}.

(** A record of [_linerecs]. *)
Record linerec := {
  idx : nat;
  nw0 : nat;
  nw1 : nat;
  nf : nat;
  ok : bool
}.

(** A record of [_wordrecs]; [widx] and [wok] are its fields [idx] and
    [ok]. *)
Record wordrec (F : Type) := {
  widx : nat;
  line : nat;
  col : Z;
  wok : bool;
  value : F
}.
Arguments widx {F} w.
Arguments line {F} w.
Arguments col {F} w.
Arguments wok {F} w.
Arguments value {F} w.

(** The arrays that the boundary scan computes, lines 255-265. *)
Record boundaries := {
  lr1 : list linerec;
  beg : list nat;
  end_ : list nat;
  rowcounts : list Z;
  begend : list (Z * Z)
}.

Section FindDataBlocks.

Context {F : Type}.
(** [float(w)], [None] when it raises. *)
Variable pyfloat : string -> option F.
(** The content of the [value] field of the record array that
    [numpy.recarray] allocates: the memory is not initialised, and line 247
    stores the converted values under the attribute [values], not in the
    field. *)
Variable uninit : nat -> F.

(** Lines 215-218. *)
Definition mincols (usecols : option (list Z)) : Z :=
  match usecols with
  | Some (c :: cs) =>
      let m := Z.max 1 (fold_left Z.max cs c + 1) in
      Z.max m (Z.abs (fold_left Z.min cs c))
  | _ => 1
  end.

(** Lines 223-230: one record per line, all [ok]. *)
Definition linerecs (splitlines : list (list string)) : list linerec :=
  let nfs := List.map (@List.length string) splitlines in
  imap (fun i '(n, e) =>
          {| idx := i; nw0 := (e - n)%nat; nw1 := e; nf := n; ok := true |})
       (zip nfs (Np.cumsum nfs)).

(** Lines 232-247: one record per word. *)
Definition wordrecs (lr : list linerec) (words : list string)
    : result (list (wordrec F)) :=
  let nwords := List.length words in
  n1 ← Np.put (Np.init (List.map nw1 lr)) true (replicate nwords false);
  let lines := Np.cumsum (List.map (fun b : bool => if b then 1%nat else 0%nat) n1) in
  starts ← Np.get (List.map nw0 lr) lines;
  Ok (imap (fun i '(w, (l, s)) =>
              {| widx := i; line := l; col := Z.of_nat i - Z.of_nat s;
                 wok := match pyfloat w with Some _ => true | None => false end;
                 value := uninit i |})
           (zip words (zip lines starts))).

Definition set_ok (v : bool) (r : linerec) : linerec :=
  {| idx := idx r; nw0 := nw0 r; nw1 := nw1 r; nf := nf r; ok := v |}.

(** [lr.ok[badlines] = False] *)
Definition mark_bad (badlines : list nat) (lr : list linerec) : result (list linerec) :=
  oks ← Np.put badlines false (List.map ok lr);
  Ok (zip_with (fun r v => set_ok v r) lr oks).

(** Lines 248-254. *)
Fixpoint prune_cols (lw : list (wordrec F)) (cols : list Z) (lr : list linerec)
    : result (list linerec) :=
  match cols with
  | [] => Ok lr
  | c :: cols' =>
      lr' ← mark_bad
              (List.map line
                 (List.filter (fun w => (col w =? c) && negb (wok w)) lw)) lr;
      prune_cols lw cols' lr'
  end.

Definition prune (usecols : option (list Z)) (lw : list (wordrec F))
    (lr : list linerec) : result (list linerec) :=
  match usecols with
  | None => mark_bad (List.map line (List.filter (fun w => negb (wok w)) lw)) lr
  | Some cols => prune_cols lw cols lr
  end.

(** Line 255. *)
Definition survivors (mincols : Z) (lr : list linerec) : list linerec :=
  List.filter (fun r => mincols <=? Z.of_nat (nf r)) lr.

(** Lines 256-261: the positions of block starts and block ends. *)
Definition begs_ends (lr1 : list linerec) : result (list nat * list nat) :=
  let oks := List.map ok lr1 in
  let nfs := List.map nf lr1 in
  rise ← Np.band (drop 1 oks) (List.map negb (Np.init oks));
  let okb := (take 1 oks ++ rise ++ [false])%list in
  fall ← Np.band (List.map negb (drop 1 oks)) (Np.init oks);
  let oke := ([false] ++ fall ++ Np.last1 oks)%list in
  change ← Np.neq (drop 1 nfs) (Np.init nfs);
  let blockb := ([true] ++ change ++ [false])%list in
  let blocke := ([false] ++ Np.init (drop 1 blockb) ++ [true])%list in
  b ← Np.bor okb blockb;
  e ← Np.bor oke blocke;
  Ok (Np.nonzero b, Np.nonzero e).

(** Lines 255-265. *)
Definition scan_boundaries (self : loader) (lr : list linerec) : result boundaries :=
  let lr1 := survivors (mincols (usecols self)) lr in
  '(beg, end_) ← begs_ends lr1;
  let zbeg := List.map Z.of_nat beg in
  let zend := List.map Z.of_nat end_ in
  rowcounts ← Np.sub zend zbeg;
  if existsb (fun c => c <? 0) rowcounts then Raise AssertionError
  else
    let goodrows := List.map (fun c => minrows self <=? c) rowcounts in
    pairs ← Np.stack2 zbeg (List.map (fun e => e - 1) zend);
    begend ← Np.mask pairs goodrows;
    Ok {| lr1 := lr1; beg := beg; end_ := end_;
          rowcounts := rowcounts; begend := begend |}.

(** Line 278, [j %= bb1.nf]; numpy's remainder by zero is zero. *)
Definition resolve (bb1 : linerec) (j : Z) : Z :=
  if (nf bb1 =? 0)%nat then 0 else j mod Z.of_nat (nf bb1).

(** Lines 276-280: the selected columns of one block. *)
Fixpoint select_cols (values : list F) (bb1 ee1 : linerec) (m : nat)
    (cols : list Z) : result (list (list F)) :=
  match cols with
  | [] => Ok []
  | j :: cols' =>
      let j := resolve bb1 j in
      rhs ← Np.strided (nw0 bb1 + Z.to_nat j) (nw1 ee1) (nf bb1) values;
      trow ← Np.assign m rhs;
      tdata ← select_cols values bb1 ee1 m cols';
      Ok (trow :: tdata)
  end.

(** Lines 273-280. *)
Definition extract (usecols : option (list Z)) (values : list F)
    (bb1 ee1 : linerec) (dbeg dend : Z) : result (list (list F)) :=
  match usecols with
  | None => Np.reshape (Py.slice (nw0 bb1) (nw1 ee1) values) (nf bb1)
  | Some cols =>
      if dend - dbeg <? 0 then Raise ValueError
      else
        let m := Z.to_nat (dend - dbeg) in
        tdata ← select_cols values bb1 ee1 m cols;
        Ok (Np.transpose m tdata)
  end.

(** Lines 266-282: the loop over the accepted blocks. It returns the
    (header, dataset) pairs in order and the last value of [hbeg]. *)
Fixpoint materialize (self : loader) (lines : list string) (values : list F)
    (lr1 : list linerec) (hbeg : nat) (begend : list (Z * Z))
    : result (list (string * list (list F)) * nat) :=
  match begend with
  | [] => Ok ([], hbeg)
  | (dbeg, dend) :: rest =>
      bb1 ← Py.index lr1 dbeg;
      ee1 ← Py.index lr1 dend;
      let hend := idx bb1 in
      let header := Py.join (Py.slice hbeg hend lines) in
      let hbeg' := S (idx ee1) in
      data ← extract (usecols self) values bb1 ee1 dbeg dend;
      '(entries, hlast) ← materialize self lines values lr1 hbeg' rest;
      Ok ((header, data) :: entries, hlast)
  end.

(** Lines 283-288. *)
Definition finish (lines : list string) (hbeg : nat)
    : list (string * list (list F)) :=
  if (hbeg <? List.length lines)%nat
  then [(Py.join (drop hbeg lines), [])]
  else [].

(** The line records after pruning, lines 219-254. *)
Definition classify (self : loader) (lines : list string)
    : result (list linerec * list (wordrec F)) :=
  let words := Py.split_ws (Py.join lines) in
  let splitlines := List.map Py.split_ws lines in
  let lr := linerecs splitlines in
  lw ← wordrecs lr words;
  lr' ← prune (usecols self) lw lr;
  Ok (lr', lw).

Definition _findDataBlocks (self : loader) (lines : list string)
    : result (list (string * list (list F))) :=
  '(lr, lw) ← classify self lines;
  b ← scan_boundaries self lr;
  '(entries, hbeg) ←
      materialize self lines (List.map value lw) (lr1 b) 0 (begend b);
  Ok (entries ++ finish lines hbeg)%list.

(** [readfp] on a stream with the given content: the list of headers
    zipped with the list of datasets. *)
Definition readfp (self : loader) (file : string)
    : result (list (string * list (list F))) :=
  _findDataBlocks self (Py.readlines file).

End FindDataBlocks.

End TextDataLoader.

(** ** Instances of the parameters, for running the model *)

(** [float] restricted to integer literals, whose values are exact:
    optional surrounding white space, an optional sign, decimal digits. *)
Module IntFloat.

Definition digit (c : ascii) : option Z :=
  let n := N_of_ascii c in
  if ((48 <=? n) && (n <=? 57))%N then Some (Z.of_N n - 48) else None.

Fixpoint digits (acc : Z) (s : string) : option Z :=
  match s with
  | EmptyString => Some acc
  | String c s' =>
      match digit c with
      | Some d => digits (10 * acc + d) s'
      | None => None
      end
  end.

Definition unsigned (s : string) : option Z :=
  match s with
  | EmptyString => None
  | _ => digits 0 s
  end.

Definition float (s : string) : option Z :=
  match Py.strip s with
  | String "-"%char r => Z.opp <$> unsigned r
  | String "+"%char r => unsigned r
  | r => unsigned r
  end.

End IntFloat.

(** [numpy.loadtxt] with its default options besides [delimiter] and
    [usecols]: every remaining line is read, what follows a [#] is a
    comment, lines without fields are skipped, and the selected fields of
    each row are converted. *)
Module Loadtxt.

Section Rows.

Context {F : Type}.
Variable pyfloat : string -> option F.

Fixpoint uncomment (s : string) : string :=
  match s with
  | EmptyString => EmptyString
  | String c s' => if Ascii.eqb c "#"%char then EmptyString else String c (uncomment s')
  end.

Definition row (delimiter : option string) (cols : list Z) (line : string)
    : result (option (list F)) :=
  let body := uncomment line in
  if Py.nonempty (Py.strip body) then
    words ← Py.split delimiter body;
    vs ← floats_at pyfloat words cols;
    Ok (Some vs)
  else Ok None.

Fixpoint rows (delimiter : option string) (cols : list Z) (lines : list string)
    : result (list (list F)) :=
  match lines with
  | [] => Ok []
  | l :: lines' =>
      r ← row delimiter cols l;
      rs ← rows delimiter cols lines';
      Ok (match r with Some vs => vs :: rs | None => rs end)
  end.

Definition loadtxt (stream : string) (delimiter : option string) (cols : list Z)
    : result (list (list F)) :=
  rows delimiter cols (Py.readlines stream).

End Rows.

End Loadtxt.

(** [loadData] and [TextDataLoader] on integer-valued files. *)
Definition loadData_int (file : string) (a : largs) : result (loaded Z) :=
  loadData IntFloat.float (Loadtxt.loadtxt IntFloat.float) file a.

(** The record array's [value] field is taken to hold zeros. *)
Definition readfp_int (self : TextDataLoader.loader) (file : string)
    : result (list (string * list (list Z))) :=
  TextDataLoader.readfp IntFloat.float (fun _ => 0) self file.

Definition nl : string := String "010"%char EmptyString.

Definition defaults : largs :=
  {| minrows := 10; headers := false; hdel := "="; hignore := None;
     delimiter := None; usecols := None |}.

(** ** Definitions that follow the words of the specification *)

Module Spec.

(** A character occurs in a string. *)
Definition occurs (c : ascii) (s : string) : Prop :=
  In c (list_ascii_of_string s).

Section Headers.

Context {F : Type}.
Variable pyfloat : string -> option F.

(** The entry of a header line: the line splits on [hdel] into exactly
    two parts, both non-blank after trimming, and the trimmed key starts
    with none of the prefixes of [hignore]; the value is the float when the
    text converts, else the text. *)
Definition header_entry (a : largs) (dline : string) : option (string * hvalue F) :=
  match Py.split_sep_aux (hdel a) 0 [] dline with
  | [p0; p1] =>
      let key := Py.strip p0 in
      let val := Py.strip p1 in
      if Py.nonempty key && Py.nonempty val
         && forallb (fun tag => negb (String.prefix tag key))
              (default [] (hignore a))
      then Some (key, match pyfloat val with
                      | Some x => HFloat x
                      | None => HStr val
                      end)
      else None
  | _ => None
  end.

(** The dictionary after the lines [read], in order: an entry replaces
    an earlier one of the same key. *)
Definition record (a : largs) (h : gmap string (hvalue F)) (dline : string)
    : gmap string (hvalue F) :=
  match header_entry a dline with
  | Some (key, v) => <[key := v]> h
  | None => h
  end.

Definition recorded (a : largs) (read : list string) : gmap string (hvalue F) :=
  fold_left (record a) read ∅.

(** A line of two white-space separated floats. *)
Definition two_floats (d : string) : Prop :=
  exists x y, Py.split_ws d = [x; y] /\ is_Some (pyfloat x) /\ is_Some (pyfloat y).

End Headers.

(** The text of the lines [b..e] of a file. *)
Definition block_text (lines : list string) (b e : nat) : string :=
  Py.join (Py.slice b (S e) lines).

End Spec.

(** The boundary record of a file: [classify] followed by
    [scan_boundaries]. *)
Definition index_file {F} (pyfloat : string -> option F) (uninit : nat -> F)
    (self : TextDataLoader.loader) (file : string)
    : result TextDataLoader.boundaries :=
  '(lr, _) ← TextDataLoader.classify pyfloat uninit self (Py.readlines file);
  TextDataLoader.scan_boundaries self lr.

(** The header rule read over all the lines of a file: whenever a line
    has an entry, the returned dictionary has its key. *)
Definition records_every_line {F} (pyfloat : string -> option F)
    (loadtxt : string -> option string -> list Z -> result (list (list F)))
    (file : string) (a : largs) : Prop :=
  forall l key v,
    In l (Py.readlines file) ->
    Spec.header_entry pyfloat a l = Some (key, v) ->
    exists h, loadData pyfloat loadtxt file a = Ok (Headers h) /\ is_Some (h !! key).

(** The arguments of the header scenario. *)
Definition scenario_args (n : Z) : largs :=
  {| minrows := n; headers := true; hdel := "="; hignore := Some ["#"; "["];
     delimiter := None; usecols := None |}.

Definition scenario_header : list string :=
  ["qmax = 10" ++ nl; "# comment" ++ nl; "[defaults]" ++ nl]%string.

(** A cell of the [value] field as the allocation left it. *)
Definition unwritten {F} (uninit : nat -> F) (x : F) : Prop :=
  exists i, x = uninit i.

(** [n] copies of a line. *)
Definition times (n : nat) (l : string) : string :=
  Py.join (replicate n l).

(** The number of [True] cells of a boolean array. *)
Definition trues (a : list bool) : nat :=
  sum_list (List.map (fun b : bool => if b then 1%nat else 0%nat) a).

(** The positions where the width changes, found by one forward pass
    that remembers the width of the previous line: position [p] is listed
    when the line at [p] has another number of words than the line at
    [p - 1]. *)
Fixpoint width_changes_from (p prev : nat) (nfs : list nat) : list nat :=
  match nfs with
  | [] => []
  | x :: rest =>
      ((if (x =? prev)%nat then [] else [p]) ++ width_changes_from (S p) x rest)%list
  end.

Definition width_changes (lr1 : list TextDataLoader.linerec) : list nat :=
  match List.map TextDataLoader.nf lr1 with
  | [] => []
  | x :: rest => width_changes_from 1 x rest
  end.

(** ** Notions used to describe the scan of [loadData] *)

Module Scan.

(** The number of bytes of a list of lines. *)
Definition bytes (ls : list string) : nat := String.length (Py.join ls).

Section Runs.

Context {F : Type}.
Variable pyfloat : string -> option F.
Variable a : largs.
Variable mincv : Z * Z.

(** [w] is a run of shape [c]: consecutive lines that all count [c]
    columns and values, [c] being no less than [mincv]. *)
Definition run (c : Z * Z) (w : list string) : Prop :=
  Py.pair_ltb c mincv = false /\
  Forall (fun l => countcolumnsvalues pyfloat a l = c) w.

(** No run of [minrows] lines ends before the last line of [d]. *)
Definition no_early_block (d : list string) : Prop :=
  forall pre w post c,
    d = (pre ++ w ++ post)%list -> post <> [] -> run c w ->
    Z.of_nat (List.length w) < minrows a.

(** What the variables [start], [ncvblock] and [nrows] say about the
    lines [d] read so far. *)
Definition candidate (d : list string) (st : scan F) : Prop :=
  match start st with
  | None => forall pre w c, d = (pre ++ w)%list -> run c w -> w = []
  | Some p =>
      exists pre blk,
        d = (pre ++ blk)%list /\ List.length blk = nrows st /\ blk <> [] /\
        run (ncvblock st) blk /\ p = bytes pre /\
        forall pre' w c, d = (pre' ++ w)%list -> run c w ->
                         (List.length w <= nrows st)%nat
  end.

End Runs.

End Scan.

(** * Theorems *)

(** ** Strings *)

Lemma list_of_rev_string (cur : list ascii) :
  list_ascii_of_string (Py.rev_string cur) = List.rev cur.
Proof. unfold Py.rev_string. apply list_ascii_of_string_of_list_ascii. Qed.

Lemma string_app_nil (s : string) : ("" ++ s)%string = s.
Proof. reflexivity. Qed.

Lemma string_app_cons (a : ascii) (s t : string) :
  (String a s ++ t)%string = String a (s ++ t).
Proof. reflexivity. Qed.

Lemma string_app_empty_r (s : string) : (s ++ "")%string = s.
Proof. induction s; rewrite ?string_app_cons, ?string_app_nil; congruence. Qed.

Lemma string_app_assoc (a b c : string) :
  ((a ++ b) ++ c)%string = (a ++ b ++ c)%string.
Proof. induction a; rewrite ?string_app_cons, ?string_app_nil; congruence. Qed.

Lemma join_cons (x : string) (l : list string) :
  Py.join (x :: l) = (x ++ Py.join l)%string.
Proof.
  unfold Py.join. destruct l as [|y l]; simpl.
  - symmetry. apply string_app_empty_r.
  - rewrite string_app_nil. reflexivity.
Qed.

Lemma join_app (l1 l2 : list string) :
  Py.join (l1 ++ l2) = (Py.join l1 ++ Py.join l2)%string.
Proof.
  induction l1 as [|x l1 IH]; [reflexivity|].
  change ((x :: l1) ++ l2)%list with (x :: (l1 ++ l2))%list.
  rewrite !join_cons, IH, string_app_assoc. reflexivity.
Qed.

Lemma string_app_of_list (l1 l2 : list ascii) :
  string_of_list_ascii (l1 ++ l2)
  = (string_of_list_ascii l1 ++ string_of_list_ascii l2)%string.
Proof.
  induction l1; simpl; rewrite ?string_app_cons, ?string_app_nil; congruence.
Qed.

(** The lines of a stream, joined, are the stream. *)
Lemma readlines_aux_join (s : string) (cur : list ascii) :
  Py.join (Py.readlines_aux cur s) = (Py.rev_string cur ++ s)%string.
Proof.
  revert cur. induction s as [|c s IH]; intros cur.
  - simpl. rewrite string_app_empty_r.
    destruct cur as [|x cur]; [reflexivity|].
    rewrite join_cons. apply string_app_empty_r.
  - simpl. destruct (Ascii.eqb c "010") eqn:E.
    + rewrite join_cons, IH.
      unfold Py.rev_string. simpl List.rev.
      rewrite string_app_of_list, string_app_assoc. reflexivity.
    + rewrite IH. unfold Py.rev_string. simpl List.rev.
      rewrite string_app_of_list, string_app_assoc. reflexivity.
Qed.

Lemma join_readlines (s : string) : Py.join (Py.readlines s) = s.
Proof. unfold Py.readlines. rewrite readlines_aux_join. reflexivity. Qed.

(** A character that is not white space lies in a word of the split. *)
Lemma split_ws_aux_cur (s : string) (cur : list ascii) (c : ascii) :
  In c cur ->
  exists w, In w (Py.split_ws_aux cur s) /\ Spec.occurs c w.
Proof.
  revert cur. induction s as [|a s IH]; intros cur Hc.
  - destruct cur as [|x cur]; [destruct Hc|].
    exists (Py.rev_string (x :: cur)). split; [left; reflexivity|].
    unfold Spec.occurs. rewrite list_of_rev_string. apply in_rev.
    rewrite rev_involutive. exact Hc.
  - simpl. destruct (Py.isspace a).
    + destruct cur as [|x cur]; [destruct Hc|].
      exists (Py.rev_string (x :: cur)). split; [left; reflexivity|].
      unfold Spec.occurs. rewrite list_of_rev_string. apply in_rev.
      rewrite rev_involutive. exact Hc.
    + apply IH. right. exact Hc.
Qed.

Lemma split_ws_aux_occurs (s : string) (cur : list ascii) (c : ascii) :
  Spec.occurs c s -> Py.isspace c = false ->
  exists w, In w (Py.split_ws_aux cur s) /\ Spec.occurs c w.
Proof.
  revert cur. induction s as [|a s IH]; intros cur Hc Hs.
  - destruct Hc.
  - simpl. destruct Hc as [->|Hc].
    + rewrite Hs. apply split_ws_aux_cur. left. reflexivity.
    + destruct (Py.isspace a).
      * destruct (IH [] Hc Hs) as (w & Hw & Hcw).
        exists w. split; [|exact Hcw].
        destruct cur; [exact Hw | right; exact Hw].
      * apply IH; assumption.
Qed.

(** Splitting on a separator whose first character does not occur gives
    the string back, in one piece. *)
Lemma split_sep_aux_absent (c0 : ascii) (sep s : string) (cur : list ascii) :
  ~ Spec.occurs c0 s ->
  Py.split_sep_aux (String c0 sep) 0 cur s
  = [string_of_list_ascii (List.rev cur ++ list_ascii_of_string s)].
Proof.
  revert cur. induction s as [|a s IH]; intros cur Hc.
  - simpl. rewrite app_nil_r. reflexivity.
  - cbn [Py.split_sep_aux String.prefix].
    destruct (ascii_dec c0 a) as [->|Hne].
    + exfalso. apply Hc. left. reflexivity.
    + rewrite IH.
      * simpl. rewrite <- app_assoc. reflexivity.
      * intros H. apply Hc. right. exact H.
Qed.

(** ** loadData: the header dictionary *)

Section LoadDataFacts.

Context {F : Type}.
Variable pyfloat : string -> option F.
Variable loadtxt : string -> option string -> list Z -> result (list (list F)).

Lemma has_tag_prefix (key tag : string) :
  has_tag key tag = String.prefix tag key.
Proof.
  revert key. induction tag as [|a t IH]; intros key.
  - unfold has_tag. simpl. destruct key; reflexivity.
  - destruct key as [|b k]; [reflexivity|].
    specialize (IH k). unfold has_tag in *.
    cbn [String.length String.substring String.prefix String.eqb].
    change (S (String.length t) <=? S (String.length k))%nat
      with (String.length t <=? String.length k)%nat.
    destruct (ascii_dec a b) as [->|Hne].
    + rewrite Ascii.eqb_refl. exact IH.
    + assert (Ascii.eqb b a = false) as ->.
      { apply Ascii.eqb_neq. congruence. }
      apply andb_false_r.
Qed.

Lemma existsb_has_tag (key : string) (tags : list string) :
  existsb (has_tag key) tags
  = negb (forallb (fun tag => negb (String.prefix tag key)) tags).
Proof.
  induction tags as [|t tags IH]; [reflexivity|].
  simpl. rewrite IH, has_tag_prefix.
  destruct (String.prefix t key); reflexivity.
Qed.

(** The code's header step and the specification's entry agree. *)
Lemma add_header_record (a : largs) (dline : string) (h : gmap string (hvalue F)) :
  headers a = true -> hdel a <> "" ->
  add_header pyfloat a dline h = Ok (Spec.record pyfloat a h dline).
Proof.
  intros Hh Hd. unfold add_header, Spec.record, Spec.header_entry, header_pair.
  rewrite Hh. unfold Py.split_sep.
  destruct (hdel a) as [|c0 sep] eqn:E; [congruence|].
  cbn [mbind result_bind].
  destruct (Py.split_sep_aux (String c0 sep) 0 [] dline) as [|p0 [|p1 [|p2 ps]]];
    try reflexivity.
  destruct (Py.nonempty (Py.strip p0)); [|reflexivity].
  destruct (Py.nonempty (Py.strip p1)); [|reflexivity].
  cbn [negb orb andb].
  destruct (hignore a) as [tags|].
  - change (default [] (Some tags)) with tags.
    rewrite existsb_has_tag.
    destruct (forallb _ tags); reflexivity.
  - reflexivity.
Qed.

Lemma fold_record_none (a : largs) (ls : list string) (h : gmap string (hvalue F)) :
  (forall l, In l ls -> Spec.header_entry pyfloat a l = None) ->
  fold_left (Spec.record pyfloat a) ls h = h.
Proof.
  revert h. induction ls as [|l ls IH]; intros h Hn; [reflexivity|].
  simpl. unfold Spec.record at 2. rewrite (Hn l) by (left; reflexivity).
  apply IH. intros l' Hl'. apply Hn. right. exact Hl'.
Qed.

Lemma fold_record_lookup_none (a : largs) (ls : list string)
    (h : gmap string (hvalue F)) (key : string) :
  fold_left (Spec.record pyfloat a) ls h !! key = None <->
  h !! key = None /\
  forall l v, In l ls -> Spec.header_entry pyfloat a l <> Some (key, v).
Proof.
  revert h. induction ls as [|l ls IH]; intros h.
  - simpl. split; [intros H; split; [exact H | intros ? ? []] | intros [H _]; exact H].
  - simpl. rewrite IH. unfold Spec.record.
    destruct (Spec.header_entry pyfloat a l) as [[k v]|] eqn:E.
    + destruct (decide (k = key)) as [->|Hne].
      * rewrite lookup_insert_eq. split.
        -- intros [H _]. discriminate.
        -- intros [_ H]. exfalso. apply (H l v); [left; reflexivity | exact E].
      * rewrite lookup_insert_ne by exact Hne. split.
        -- intros [H1 H2]. split; [exact H1|].
           intros l' v' [<-|Hin]; [congruence | apply H2; exact Hin].
        -- intros [H1 H2]. split; [exact H1|].
           intros l' v' Hin. apply H2. right. exact Hin.
    + split.
      * intros [H1 H2]. split; [exact H1|].
        intros l' v' [<-|Hin]; [congruence | apply H2; exact Hin].
      * intros [H1 H2]. split; [exact H1|].
        intros l' v' Hin. apply H2. right. exact Hin.
Qed.

Lemma fold_record_lookup_some (a : largs) (ls : list string)
    (h : gmap string (hvalue F)) (key : string) (v : hvalue F) :
  fold_left (Spec.record pyfloat a) ls h !! key = Some v ->
  h !! key = Some v \/
  exists l, In l ls /\ Spec.header_entry pyfloat a l = Some (key, v).
Proof.
  revert h. induction ls as [|l ls IH]; intros h H.
  - left. exact H.
  - simpl in H. apply IH in H. destruct H as [H|(l' & Hin & H)].
    + unfold Spec.record in H.
      destruct (Spec.header_entry pyfloat a l) as [[k v']|] eqn:E.
      * destruct (decide (k = key)) as [->|Hne].
        -- rewrite lookup_insert_eq in H. injection H as ->.
           right. exists l. split; [left; reflexivity | exact E].
        -- rewrite lookup_insert_ne in H by exact Hne. left. exact H.
      * left. exact H.
    + right. exists l'. split; [right; exact Hin | exact H].
Qed.

(** The loop reads a prefix of the lines, never raises when the header
    delimiter is not empty, and leaves in [hdata] what the lines it read
    record; it leaves lines unread only when the row counter has reached
    [minrows]. *)
Lemma scan_lines_read (a : largs) (mincv : Z * Z) :
  headers a = true -> hdel a <> "" ->
  forall (lines : list string) (st : scan F),
  exists read rest st',
    scan_lines pyfloat a mincv st lines = Ok (st', rest) /\
    lines = (read ++ rest)%list /\
    hdata st' = fold_left (Spec.record pyfloat a) read (hdata st) /\
    (rest <> [] -> minrows a <= Z.of_nat (nrows st')) /\
    (lines <> [] -> read <> []).
Proof.
  intros Hh Hd lines. induction lines as [|l lines IH]; intros st.
  - exists [], [], st. simpl. repeat split; congruence.
  - cbn [scan_lines]. rewrite (add_header_record a l (hdata st) Hh Hd).
    cbn [mbind result_bind].
    destruct (Py.pair_ltb (countcolumnsvalues pyfloat a l) mincv).
    + match goal with |- context [scan_lines _ _ _ ?s lines] =>
        destruct (IH s) as (read & rest & st' & E & Hl & Hd' & Hs & _) end.
      exists (l :: read), rest, st'. rewrite E.
      repeat split; [simpl; congruence | exact Hd' | exact Hs | discriminate].
    + match goal with |- context [if ?c then Ok (?s, lines) else _] =>
        destruct c eqn:Hc; [|destruct (IH s) as (read & rest & st' & E & Hl & Hd' & Hs & _)]
      end.
      * eexists [l], lines, _. split; [reflexivity|].
        repeat split; [| discriminate].
        intros _. cbn [nrows]. apply Z.leb_le. exact Hc.
      * exists (l :: read), rest, st'. rewrite E.
        repeat split; [simpl; congruence | exact Hd' | exact Hs | discriminate].
Qed.

End LoadDataFacts.

Section LoadDataHeaders.

Context {F : Type}.
Variable pyfloat : string -> option F.
Variable loadtxt : string -> option string -> list Z -> result (list (list F)).

Lemma mincv_of_ok (cols : option (list Z)) :
  cols <> Some [] -> exists mincv, mincv_of cols = Ok mincv.
Proof.
  intros H. destruct cols as [[|c cs]|]; [congruence | |]; eexists; reflexivity.
Qed.

(** A line of two floats has no entry when no float contains the
    delimiter's first character. *)
Lemma two_floats_no_entry (a : largs) (c0 : ascii) (sep d : string) :
  hdel a = String c0 sep -> Py.isspace c0 = false ->
  (forall w, is_Some (pyfloat w) -> ~ Spec.occurs c0 w) ->
  Spec.two_floats pyfloat d ->
  Spec.header_entry pyfloat a d = None.
Proof.
  intros Hd Hsp Hfl (x & y & Hxy & Hx & Hy).
  unfold Spec.header_entry. rewrite Hd, split_sep_aux_absent; [reflexivity|].
  intros Hocc.
  destruct (split_ws_aux_occurs d [] c0 Hocc Hsp) as (w & Hw & Hcw).
  fold (Py.split_ws d) in Hw. rewrite Hxy in Hw.
  destruct Hw as [<-|[<-|[]]]; [apply (Hfl x) | apply (Hfl y)]; assumption.
Qed.

End LoadDataHeaders.

(** ** loadData: evaluations *)

Lemma lstrip_occurs (s : string) (c : ascii) :
  Spec.occurs c s -> Py.isspace c = false -> Spec.occurs c (Py.lstrip s).
Proof.
  induction s as [|a s IH]; intros Hc Hs; [destruct Hc|].
  simpl. destruct (Py.isspace a) eqn:E.
  - destruct Hc as [->|Hc]; [congruence | apply IH; assumption].
  - exact Hc.
Qed.

Lemma rstrip_occurs (s : string) (c : ascii) :
  Spec.occurs c s -> Py.isspace c = false -> Spec.occurs c (Py.rstrip s).
Proof.
  induction s as [|a s IH]; intros Hc Hs; [destruct Hc|].
  simpl. destruct Hc as [->|Hc].
  - destruct (Py.rstrip s); [rewrite Hs|]; left; reflexivity.
  - specialize (IH Hc Hs). destruct (Py.rstrip s); [destruct IH|].
    right. exact IH.
Qed.

Lemma digits_occurs (s : string) (acc v : Z) (c : ascii) :
  IntFloat.digits acc s = Some v -> Spec.occurs c s -> is_Some (IntFloat.digit c).
Proof.
  revert acc. induction s as [|a s IH]; intros acc H Hc; [destruct Hc|].
  simpl in H. destruct (IntFloat.digit a) as [d|] eqn:E; [|discriminate].
  destruct Hc as [<-|Hc]; [rewrite E; eexists; reflexivity | eapply IH; eassumption].
Qed.

(** An integer literal has no equals sign. *)
Lemma int_float_no_equals (w : string) :
  is_Some (IntFloat.float w) -> ~ Spec.occurs "="%char w.
Proof.
  intros [v Hv] Hocc.
  assert (Hs : Spec.occurs "="%char (Py.strip w)).
  { apply rstrip_occurs; [apply lstrip_occurs|]; [exact Hocc | reflexivity | reflexivity]. }
  unfold IntFloat.float in Hv.
  assert (Hdig : forall r x, IntFloat.unsigned r = Some x ->
                 Spec.occurs "="%char r -> False).
  { intros r x Hr Ho. destruct r as [|a r]; [destruct Ho|].
    unfold IntFloat.unsigned in Hr.
    destruct (digits_occurs _ _ _ _ Hr Ho) as [d Hd]. discriminate. }
  destruct (Py.strip w) as [|a r] eqn:E; [destruct Hs|].
  destruct (Ascii.eqb a "-") eqn:E1.
  - apply Ascii.eqb_eq in E1. subst a.
    destruct (IntFloat.unsigned r) as [x|] eqn:Hr; [|discriminate].
    destruct Hs as [Hs|Hs]; [discriminate | exact (Hdig r x Hr Hs)].
  - destruct (Ascii.eqb a "+") eqn:E2.
    + apply Ascii.eqb_eq in E2. subst a.
      destruct Hs as [Hs|Hs]; [discriminate | exact (Hdig r v Hv Hs)].
    + assert (Hv' : IntFloat.unsigned (String a r) = Some v).
      { destruct a as [[] [] [] [] [] [] [] []]; try exact Hv; discriminate. }
      exact (Hdig _ v Hv' Hs).
Qed.


(** C2. The file has two rows of two floats and [minrows] is 10:
    [loadData] returns the two rows, a block shorter than [minrows]. *)
Theorem loadData_short_block :
  minrows defaults = 10 /\
  loadData_int ("1 2" ++ nl ++ "3 4" ++ nl)%string defaults
  = Ok (Array [[1; 2]; [3; 4]]).
Proof. split; reflexivity. Qed.

(** C5. The file has two lines, so no run of 10 lines: [loadData] returns
    the last line as a one-row array, not the empty array. *)
Theorem loadData_no_block_not_empty :
  List.length (Py.readlines ("x" ++ nl ++ "1 2" ++ nl)%string) = 2%nat /\
  minrows defaults = 10 /\
  loadData_int ("x" ++ nl ++ "1 2" ++ nl)%string defaults = Ok (Array [[1; 2]]).
Proof. repeat split; reflexivity. Qed.

(** ** TextDataLoader: the column threshold and the column selection *)

Section Threshold.

Import TextDataLoader.

Lemma fold_max_spec (cs : list Z) (c : Z) :
  In (fold_left Z.max cs c) (c :: cs) /\
  forall j, In j (c :: cs) -> j <= fold_left Z.max cs c.
Proof.
  revert c. induction cs as [|x cs IH]; intros c.
  - simpl. split; [left; reflexivity | intros j [<-|[]]; lia].
  - simpl fold_left. destruct (IH (Z.max c x)) as [Hin Hub]. split.
    + destruct Hin as [Hin|Hin]; [|right; right; exact Hin].
      rewrite <- Hin. destruct (Z.max_spec c x) as [[_ ->]|[_ ->]];
        [right; left | left]; reflexivity.
    + intros j [<-|[<-|Hj]].
      * specialize (Hub (Z.max c x) (or_introl eq_refl)). lia.
      * specialize (Hub (Z.max c x) (or_introl eq_refl)). lia.
      * apply Hub. right. exact Hj.
Qed.

Lemma fold_min_spec (cs : list Z) (c : Z) :
  In (fold_left Z.min cs c) (c :: cs) /\
  forall j, In j (c :: cs) -> fold_left Z.min cs c <= j.
Proof.
  revert c. induction cs as [|x cs IH]; intros c.
  - simpl. split; [left; reflexivity | intros j [<-|[]]; lia].
  - simpl fold_left. destruct (IH (Z.min c x)) as [Hin Hlb]. split.
    + destruct Hin as [Hin|Hin]; [|right; right; exact Hin].
      rewrite <- Hin. destruct (Z.min_spec c x) as [[_ ->]|[_ ->]];
        [left | right; left]; reflexivity.
    + intros j [<-|[<-|Hj]].
      * specialize (Hlb (Z.min c x) (or_introl eq_refl)). lia.
      * specialize (Hlb (Z.min c x) (or_introl eq_refl)). lia.
      * apply Hlb. right. exact Hj.
Qed.

Lemma survivors_idem (m : Z) (lr : list linerec) :
  survivors m (survivors m lr) = survivors m lr.
Proof.
  unfold survivors. induction lr as [|r lr IH]; [reflexivity|].
  simpl. destruct (m <=? Z.of_nat (nf r)) eqn:E; [|exact IH].
  simpl. rewrite E, IH. reflexivity.
Qed.

(** C9. With a non-empty selection the threshold [mincols] is the maximum
    of 1, [max(usecols) + 1] and [abs(min(usecols))]; with no selection, or
    an empty one, it is 1. The lines that survive are those of at least
    [mincols] tokens, and the boundary scan sees the survivors only: it
    gives the same result on all the line records and on the survivors
    alone. *)
Theorem mincols_threshold (self : loader) (lr : list linerec) :
  match usecols self with
  | Some (c :: cs) =>
      exists hi lo,
        In hi (c :: cs) /\ In lo (c :: cs) /\
        (forall j, In j (c :: cs) -> lo <= j <= hi) /\
        mincols (usecols self) = Z.max 1 (Z.max (hi + 1) (Z.abs lo))
  | _ => mincols (usecols self) = 1
  end /\
  (forall r, In r (survivors (mincols (usecols self)) lr) <->
             In r lr /\ mincols (usecols self) <= Z.of_nat (nf r)) /\
  scan_boundaries self lr
  = scan_boundaries self (survivors (mincols (usecols self)) lr).
Proof.
  split; [|split].
  - destruct (usecols self) as [[|c cs]|]; try reflexivity.
    exists (fold_left Z.max cs c), (fold_left Z.min cs c).
    destruct (fold_max_spec cs c) as [Hmax Hub].
    destruct (fold_min_spec cs c) as [Hmin Hlb].
    repeat split; auto. unfold mincols. lia.
  - intros r. unfold survivors. rewrite filter_In, Z.leb_le. reflexivity.
  - unfold scan_boundaries. rewrite survivors_idem. reflexivity.
Qed.

End Threshold.

Section Selection.

Import TextDataLoader.

Context {F : Type}.

Lemma select_cols_error (values : list F) (bb1 ee1 : linerec) (m : nat)
    (cols : list Z) (e : exn) :
  select_cols values bb1 ee1 m cols = Raise e -> e = ValueError.
Proof.
  induction cols as [|j cols IH]; [discriminate|].
  cbn [select_cols]. unfold Np.strided.
  destruct (nf bb1) as [|n]; cbn [mbind result_bind]; [congruence|].
  unfold Np.assign.
  match goal with |- context [(?a =? m)%nat] => destruct (a =? m)%nat end;
    cbn [mbind result_bind].
  - destruct (select_cols values bb1 ee1 m cols); [discriminate | exact IH].
  - match goal with |- context [Np.every (S n) 0 ?l] =>
      destruct (Np.every (S n) 0 l) as [|x [|y r]] end;
      cbn [mbind result_bind]; try congruence.
    destruct (select_cols values bb1 ee1 m cols); [discriminate | exact IH].
Qed.

End Selection.

(** ** TextDataLoader: evaluations *)

(** C1. Two rows of two floats, [minrows] 2. Without a selection the
    dataset holds the cells of the record array's [value] field, whatever
    they are, and not the parsed values 1, 2, 3, 4; with the selection
    [(0,)] the extraction raises a [ValueError]. *)
Theorem dataset_not_parsed_values (uninit : nat -> Z) :
  TextDataLoader.readfp IntFloat.float uninit
    {| TextDataLoader.minrows := 2; TextDataLoader.usecols := None |}
    ("1 2" ++ nl ++ "3 4" ++ nl)%string
  = Ok [("", [[uninit 0%nat; uninit 1%nat]; [uninit 2%nat; uninit 3%nat]])]
  /\
  TextDataLoader.readfp IntFloat.float uninit
    {| TextDataLoader.minrows := 2; TextDataLoader.usecols := Some [0] |}
    ("1 2" ++ nl ++ "3 4" ++ nl)%string
  = Raise ValueError.
Proof. split; vm_compute; reflexivity. Qed.

(** C3. Ten lines "a b c" and a line "1 2", [minrows] 10, no selection:
    the one accepted block is the ten lines of text, none of which is
    [ok], and the line of floats ends in the trailing header. *)
Theorem block_of_text_accepted :
  let self := {| TextDataLoader.minrows := 10; TextDataLoader.usecols := None |} in
  let file := (times 10 ("a b c" ++ nl) ++ "1 2" ++ nl)%string in
  (exists b,
     index_file IntFloat.float (fun _ => 0) self file = Ok b /\
     TextDataLoader.begend b = [(0, 9)] /\
     List.map TextDataLoader.ok (Py.slice 0 10 (TextDataLoader.lr1 b))
     = replicate 10 false) /\
  readfp_int self file
  = Ok [("", replicate 10 [0; 0; 0]); (("1 2" ++ nl)%string, [])].
Proof.
  split.
  - eexists. split; [vm_compute; reflexivity|]. split; reflexivity.
  - vm_compute. reflexivity.
Qed.

(** C4. The lines "a", "1", "b", [minrows] 2: two blocks are accepted,
    lines 0-1 and lines 1-2, which share line 1; both headers are empty,
    and the headers and block texts in order spell a text that is not the
    file. *)
Theorem blocks_overlap :
  let self := {| TextDataLoader.minrows := 2; TextDataLoader.usecols := None |} in
  let file := ("a" ++ nl ++ "1" ++ nl ++ "b" ++ nl)%string in
  let lines := Py.readlines file in
  (exists b,
     index_file IntFloat.float (fun _ => 0) self file = Ok b /\
     TextDataLoader.begend b = [(0, 1); (1, 2)]) /\
  readfp_int self file = Ok [("", [[0]; [0]]); ("", [[0]; [0]])] /\
  ("" ++ Spec.block_text lines 0 1 ++ "" ++ Spec.block_text lines 1 2)%string
  = ("a" ++ nl ++ "1" ++ nl ++ "1" ++ nl ++ "b" ++ nl)%string /\
  ("" ++ Spec.block_text lines 0 1 ++ "" ++ Spec.block_text lines 1 2)%string
  <> file.
Proof.
  repeat split; try (vm_compute; reflexivity).
  - eexists. split; [vm_compute; reflexivity | reflexivity].
  - vm_compute. discriminate.
Qed.

(** C7. A line of text and an empty line: no block is accepted and two
    lines remain, yet no entry is emitted: the word-to-line assignment
    raises an [IndexError]. *)
Theorem trailing_blank_line_raises :
  let self := {| TextDataLoader.minrows := 10; TextDataLoader.usecols := None |} in
  List.length (Py.readlines ("x" ++ nl ++ nl)%string) = 2%nat /\
  readfp_int self ("x" ++ nl ++ nl)%string = Raise IndexError.
Proof. split; vm_compute; reflexivity. Qed.

(** C10. The lines "a", "1", "2 3": the scan finds three block starts and
    two block ends, and the subtraction of the two arrays raises a
    [ValueError]. For eight lines that alternate floats and text with
    growing widths it finds six starts and six ends whose third pair has
    its end before its start, and the assertion fails. *)
Theorem starts_and_ends_mismatch :
  let self := {| TextDataLoader.minrows := 10; TextDataLoader.usecols := None |} in
  let file3 := ("a" ++ nl ++ "1" ++ nl ++ "2 3" ++ nl)%string in
  let file8 := ("1" ++ nl ++ "a" ++ nl ++ "1 2" ++ nl ++ "a b" ++ nl
                ++ "a b c" ++ nl ++ "1 2 3" ++ nl
                ++ "a b c d" ++ nl ++ "1 2 3 4" ++ nl)%string in
  (exists lr lw,
     TextDataLoader.classify IntFloat.float (fun _ => 0) self (Py.readlines file3)
     = Ok (lr, lw) /\
     TextDataLoader.begs_ends (TextDataLoader.survivors 1 lr)
     = Ok ([0; 1; 2]%nat, [2; 3]%nat) /\
     TextDataLoader.scan_boundaries self lr = Raise ValueError) /\
  (exists lr lw,
     TextDataLoader.classify IntFloat.float (fun _ => 0) self (Py.readlines file8)
     = Ok (lr, lw) /\
     TextDataLoader.begs_ends (TextDataLoader.survivors 1 lr)
     = Ok ([0; 2; 4; 5; 6; 7]%nat, [1; 2; 3; 4; 6; 8]%nat) /\
     TextDataLoader.scan_boundaries self lr = Raise AssertionError).
Proof.
  split; do 2 eexists; (split; [vm_compute; reflexivity|]);
    split; vm_compute; reflexivity.
Qed.

(** ** TextDataLoader: what holds of every run that returns *)

Section Returns.

Import TextDataLoader.

Context {F : Type}.
Variable pyfloat : string -> option F.
Variable uninit : nat -> F.

(** The last step, lines 283-288: when lines remain after the last
    accepted block, one entry with those lines as header and no row. *)
Lemma findDataBlocks_trailing (self : loader) (lines : list string)
    (entries : list (string * list (list F))) :
  _findDataBlocks pyfloat uninit self lines = Ok entries ->
  exists blocks hbeg,
    entries = (blocks ++ finish lines hbeg)%list /\
    ((hbeg < List.length lines)%nat ->
     finish (F:=F) lines hbeg = [(Py.join (drop hbeg lines), [])]) /\
    ((List.length lines <= hbeg)%nat -> finish (F:=F) lines hbeg = []).
Proof.
  unfold _findDataBlocks. intros H.
  destruct (classify pyfloat uninit self lines) as [[lr lw]|]; [|discriminate].
  cbn [mbind result_bind] in H.
  destruct (scan_boundaries self lr) as [b|]; [|discriminate].
  cbn [mbind result_bind] in H.
  destruct (materialize self lines (List.map value lw) (lr1 b) 0 (begend b))
    as [[blocks hbeg]|]; [|discriminate].
  cbn [mbind result_bind] in H. injection H as <-.
  exists blocks, hbeg. split; [reflexivity|]. unfold finish. split; intros Hlt.
  - apply Nat.ltb_lt in Hlt. rewrite Hlt. reflexivity.
  - apply Nat.ltb_ge in Hlt. rewrite Hlt. reflexivity.
Qed.

Lemma wordrecs_values (lr : list linerec) (words : list string)
    (lw : list (wordrec F)) :
  wordrecs pyfloat uninit lr words = Ok lw ->
  Forall (unwritten uninit) (List.map value lw).
Proof.
  unfold wordrecs. intros H.
  destruct (Np.put _ _ _) as [n1|]; [|discriminate].
  cbn [mbind result_bind] in H.
  destruct (Np.get _ _) as [starts|]; [|discriminate].
  cbn [mbind result_bind] in H. injection H as <-.
  apply Forall_forall. intros x Hx.
  apply list_elem_of_In, in_map_iff in Hx. destruct Hx as (w & <- & Hw).
  apply list_elem_of_In, list_elem_of_lookup in Hw. destruct Hw as (i & Hi).
  rewrite list_lookup_imap in Hi.
  destruct (zip words _ !! i) as [[w0 [l s]]|]; [|discriminate].
  injection Hi as <-. exists i. reflexivity.
Qed.

Lemma every_Forall (P : F -> Prop) (step : nat) (a : list F) (k : nat) :
  Forall P a -> Forall P (Np.every step k a).
Proof.
  intros H. revert k. induction H as [|x a Hx Ha IH]; intros k; [constructor|].
  simpl. destruct k; [constructor; [exact Hx | apply IH] | apply IH].
Qed.

Lemma chunks_Forall (P : F -> Prop) (fuel n : nat) (a : list F) :
  Forall P a -> Forall (Forall P) (Np.chunks fuel n a).
Proof.
  revert a. induction fuel as [|fuel IH]; intros a H; [constructor|].
  simpl. destruct a as [|x a]; [constructor|].
  constructor; [apply Forall_take; exact H | apply IH, Forall_drop; exact H].
Qed.

Lemma heads_Forall (P : F -> Prop) (rows : list (list F)) :
  Forall (Forall P) rows -> Forall P (Np.heads rows).
Proof.
  induction 1 as [|r rows Hr Hrows IH]; [constructor|].
  simpl. destruct Hr; [exact IH | constructor; assumption].
Qed.

Lemma transpose_Forall (P : F -> Prop) (m : nat) (rows : list (list F)) :
  Forall (Forall P) rows -> Forall (Forall P) (Np.transpose m rows).
Proof.
  revert rows. induction m as [|m IH]; intros rows H; [constructor|].
  simpl. constructor; [apply heads_Forall; exact H|].
  apply IH. apply Forall_forall. intros r Hr.
  apply list_elem_of_In, in_map_iff in Hr. destruct Hr as (r0 & <- & Hr0).
  apply Forall_drop. rewrite Forall_forall in H. apply H, list_elem_of_In, Hr0.
Qed.

Lemma select_cols_Forall (P : F -> Prop) (values : list F) (bb1 ee1 : linerec)
    (m : nat) (cols : list Z) (tdata : list (list F)) :
  Forall P values ->
  select_cols values bb1 ee1 m cols = Ok tdata -> Forall (Forall P) tdata.
Proof.
  intros Hv. revert tdata. induction cols as [|j cols IH]; intros tdata H.
  - injection H as <-. constructor.
  - cbn [select_cols] in H. unfold Np.strided in H.
    destruct (nf bb1) as [|n]; [discriminate|].
    cbn [mbind result_bind] in H.
    match type of H with context [Np.assign m ?r] =>
      assert (Hr : Forall P r) by (apply every_Forall, Forall_take, Forall_drop, Hv);
      destruct (Np.assign m r) as [trow|] eqn:Ea; [|discriminate];
      assert (Ht : Forall P trow)
    end.
    { unfold Np.assign in Ea.
      match type of Ea with context [if ?c then _ else _] => destruct c end.
      - injection Ea as <-. exact Hr.
      - match type of Ea with match ?r with _ => _ end = _ =>
          destruct r as [|x [|y r']]; try discriminate end.
        injection Ea as <-. apply Forall_replicate.
        inversion Hr; assumption. }
    cbn [mbind result_bind] in H.
    destruct (select_cols values bb1 ee1 m cols) as [rest|]; [|discriminate].
    cbn [mbind result_bind] in H. injection H as <-.
    constructor; [exact Ht | apply IH; reflexivity].
Qed.

Lemma extract_Forall (P : F -> Prop) (cols : option (list Z)) (values : list F)
    (bb1 ee1 : linerec) (dbeg dend : Z) (data : list (list F)) :
  Forall P values ->
  extract cols values bb1 ee1 dbeg dend = Ok data -> Forall (Forall P) data.
Proof.
  intros Hv H. unfold extract in H. destruct cols as [cols|].
  - destruct (dend - dbeg <? 0); [discriminate|].
    destruct (select_cols _ _ _ _ cols) as [tdata|] eqn:E; [|discriminate].
    cbn [mbind result_bind] in H. injection H as <-.
    apply transpose_Forall. exact (select_cols_Forall P _ _ _ _ _ _ Hv E).
  - unfold Np.reshape in H. destruct (nf bb1); [discriminate|].
    match type of H with context [if ?c then _ else _] => destruct c end;
      [|discriminate].
    injection H as <-. apply chunks_Forall, Forall_take, Forall_drop, Hv.
Qed.

Lemma materialize_Forall (P : F -> Prop) (self : loader) (lines : list string)
    (values : list F) (lr1 : list linerec) (begend : list (Z * Z)) :
  Forall P values ->
  forall (hbeg : nat) (entries : list (string * list (list F))) (hlast : nat),
  materialize self lines values lr1 hbeg begend = Ok (entries, hlast) ->
  Forall (fun e => Forall (Forall P) e.2) entries.
Proof.
  intros Hv. induction begend as [|[dbeg dend] rest IH]; intros hbeg entries hlast H.
  - injection H as <- _. constructor.
  - cbn [materialize] in H.
    destruct (Py.index lr1 dbeg) as [bb1|]; [|discriminate].
    cbn [mbind result_bind] in H.
    destruct (Py.index lr1 dend) as [ee1|]; [|discriminate].
    cbn [mbind result_bind] in H.
    destruct (extract _ values bb1 ee1 dbeg dend) as [data|] eqn:E; [|discriminate].
    cbn [mbind result_bind] in H.
    destruct (materialize self lines values lr1 (S (idx ee1)) rest)
      as [[es hl]|] eqn:Em; [|discriminate].
    cbn [mbind result_bind] in H. injection H as <- _.
    constructor; [exact (extract_Forall P _ _ _ _ _ _ _ Hv E) | exact (IH _ _ _ Em)].
Qed.

(** Whatever the file, every cell of every dataset that [_findDataBlocks]
    returns is a cell of the [value] field as the allocation left it: the
    converted values of the words reach no dataset. *)
Lemma datasets_unwritten (self : loader) (lines : list string)
    (entries : list (string * list (list F))) :
  _findDataBlocks pyfloat uninit self lines = Ok entries ->
  Forall (fun e => Forall (Forall (unwritten uninit)) e.2) entries.
Proof.
  unfold _findDataBlocks, classify. intros H.
  destruct (wordrecs pyfloat uninit _ _) as [lw|] eqn:Ew; [|discriminate].
  cbn [mbind result_bind] in H.
  destruct (prune _ lw _) as [lr|]; [|discriminate].
  cbn [mbind result_bind] in H.
  destruct (scan_boundaries self lr) as [b|]; [|discriminate].
  cbn [mbind result_bind] in H.
  destruct (materialize self lines (List.map value lw) (lr1 b) 0 (begend b))
    as [[blocks hbeg]|] eqn:Em; [|discriminate].
  cbn [mbind result_bind] in H. injection H as <-.
  apply Forall_app. split.
  - exact (materialize_Forall (unwritten uninit) _ _ _ _ _ (wordrecs_values _ _ _ Ew) _ _ _ Em).
  - unfold finish. destruct (_ <? _)%nat; repeat constructor.
Qed.

End Returns.

(** ** loadData: the scan with headers disabled *)

Section LoadDataScan.

Context {F : Type}.
Variable pyfloat : string -> option F.

(** Without headers the loop never raises; it leaves lines unread only
    when the row counter has reached [minrows], with the start of the
    block recorded; and when it reads the whole file and the last line is
    unacceptable, no start is left. *)
Lemma scan_lines_stop (a : largs) (mincv : Z * Z) :
  headers a = false ->
  forall (lines : list string) (st : scan F),
  exists read rest st',
    scan_lines pyfloat a mincv st lines = Ok (st', rest) /\
    lines = (read ++ rest)%list /\
    (rest <> [] -> minrows a <= Z.of_nat (nrows st') /\ is_Some (start st')) /\
    (rest = [] -> forall l, last lines = Some l ->
       Py.pair_ltb (countcolumnsvalues pyfloat a l) mincv = true ->
       start st' = None).
Proof.
  intros Hh lines. induction lines as [|l lines IH]; intros st.
  - exists [], [], st. repeat split; try congruence. discriminate.
  - cbn [scan_lines]. unfold add_header. rewrite Hh. cbn [mbind result_bind].
    destruct (Py.pair_ltb (countcolumnsvalues pyfloat a l) mincv) eqn:Hlt.
    + match goal with |- context [scan_lines _ _ _ ?s lines] =>
        destruct (IH s) as (read & rest & st' & E & Hl & Hs & Hlast) end.
      exists (l :: read), rest, st'. rewrite E.
      split; [reflexivity|]. split; [simpl; congruence|]. split; [exact Hs|].
      intros Hrest l' Hl' Hrej. destruct lines as [|l2 lines].
      * simpl in E. injection E as <- _. reflexivity.
      * apply (Hlast Hrest l'); [exact Hl' | exact Hrej].
    + match goal with |- context [if ?c then Ok (?s, lines) else _] =>
        destruct c eqn:Hc;
        [|destruct (IH s) as (read & rest & st' & E & Hl & Hs & Hlast)]
      end.
      * eexists [l], lines, _. split; [reflexivity|]. split; [reflexivity|].
        split.
        -- intros _. cbn [nrows start]. split; [apply Z.leb_le; exact Hc|].
           destruct (start st); [destruct (negb _)|]; eexists; reflexivity.
        -- intros -> l' Hl' Hrej. injection Hl' as <-. congruence.
      * exists (l :: read), rest, st'. rewrite E.
        split; [reflexivity|]. split; [simpl; congruence|]. split; [exact Hs|].
        intros Hrest l' Hl' Hrej. destruct lines as [|l2 lines].
        -- injection Hl' as <-. congruence.
        -- apply (Hlast Hrest l'); [exact Hl' | exact Hrej].
Qed.

End LoadDataScan.

(** * Further properties of the code *)

(** ** countcolumnsvalues and mincv *)

Lemma string_length_app (s t : string) :
  String.length (s ++ t) = (String.length s + String.length t)%nat.
Proof.
  induction s as [|c s IH]; [reflexivity|].
  rewrite string_app_cons. simpl. rewrite IH. reflexivity.
Qed.

Lemma length_remove_dups_le {A} `{EqDecision A} (l : list A) :
  (List.length (remove_dups l) <= List.length l)%nat.
Proof.
  induction l as [|x l IH]; [reflexivity|].
  simpl. destruct (decide_rel elem_of x l); simpl; lia.
Qed.

Lemma index_ok_range {A} (l : list A) (i : Z) (x : A) :
  Py.index l i = Ok x ->
  - Z.of_nat (List.length l) <= i < Z.of_nat (List.length l).
Proof.
  unfold Py.index. intros H.
  destruct (i <? 0) eqn:Hi;
    match type of H with (if ?c then _ else _) = _ => destruct c eqn:Hc end;
    try discriminate; lia.
Qed.

Lemma index_range_ok {A} (l : list A) (i : Z) :
  - Z.of_nat (List.length l) <= i < Z.of_nat (List.length l) ->
  exists x, Py.index l i = Ok x.
Proof.
  intros Hr. unfold Py.index.
  set (j := if i <? 0 then i + Z.of_nat (List.length l) else i).
  assert (Hj : 0 <= j < Z.of_nat (List.length l)).
  { unfold j. destruct (i <? 0) eqn:Hi; lia. }
  replace ((0 <=? j) && (j <? Z.of_nat (List.length l))) with true
    by (symmetry; apply andb_true_iff; split; lia).
  destruct (l !! Z.to_nat j) as [x|] eqn:E; [exists x; reflexivity|].
  apply lookup_ge_None in E. lia.
Qed.

(** The pair [mincv] of a non-empty selection: its first component is at
    least 1 and is the least column count that puts every selected index
    in range; its second is at most the number of selected indices. *)
Lemma mincv_of_selection (cols : list Z) (m : Z * Z) :
  mincv_of (Some cols) = Ok m ->
  1 <= m.1 /\
  (forall n, m.1 <= n <-> (1 <= n /\ forall i, In i cols -> - n <= i < n)) /\
  m.2 <= Z.of_nat (List.length cols).
Proof.
  destruct cols as [|c cs]; [discriminate|].
  intros H. injection H as <-. cbn [fst snd].
  destruct (fold_max_spec cs c) as [Hmax Hub].
  destruct (fold_min_spec cs c) as [Hmin Hlb].
  set (hi := fold_left Z.max cs c) in *. set (lo := fold_left Z.min cs c) in *.
  assert (Hlohi : lo <= hi) by (apply Hub; exact Hmin).
  split; [lia|]. split.
  - intros n. split.
    + intros Hn. split; [lia|]. intros i Hi.
      specialize (Hub i Hi). specialize (Hlb i Hi). lia.
    + intros [_ Hn]. specialize (Hn lo Hmin) as H1. specialize (Hn hi Hmax) as H2. lia.
  - apply Nat2Z.inj_le. exact (length_remove_dups_le (c :: cs)).
Qed.

Section CountColumns.

Context {F : Type}.
Variable pyfloat : string -> option F.

Lemma floats_at_ok (words : list string) (cols : list Z) (vs : list F) :
  floats_at pyfloat words cols = Ok vs ->
  List.length vs = List.length cols /\
  Forall (fun i => exists w, Py.index words i = Ok w /\ is_Some (pyfloat w)) cols.
Proof.
  revert vs. induction cols as [|i cols IH]; intros vs H.
  - injection H as <-. split; [reflexivity | constructor].
  - cbn [floats_at] in H.
    destruct (Py.index words i) as [w|] eqn:Ei; [|discriminate].
    cbn [mbind result_bind] in H.
    destruct (pyfloat w) as [x|] eqn:Ew; [|discriminate].
    destruct (floats_at pyfloat words cols) as [xs|]; [|discriminate].
    cbn [mbind result_bind] in H. injection H as <-.
    destruct (IH xs eq_refl) as [Hl Hf]. split; [simpl; congruence|].
    constructor; [|exact Hf]. exists w. split; [exact Ei | eexists; exact Ew].
Qed.

Lemma floats_at_total (words : list string) (cols : list Z) :
  Forall (fun i => exists w, Py.index words i = Ok w /\ is_Some (pyfloat w)) cols ->
  exists vs, floats_at pyfloat words cols = Ok vs.
Proof.
  induction 1 as [|i cols (w & Hw & [x Hx]) _ (vs & IH)]; [eexists; reflexivity|].
  exists (x :: vs). cbn [floats_at]. rewrite Hw. cbn [mbind result_bind].
  rewrite Hx, IH. reflexivity.
Qed.

Lemma floats_ok (ws : list string) (vs : list F) :
  floats pyfloat ws = Ok vs ->
  List.length vs = List.length ws /\ Forall (fun w => is_Some (pyfloat w)) ws.
Proof.
  revert vs. induction ws as [|w ws IH]; intros vs H.
  - injection H as <-. split; [reflexivity | constructor].
  - cbn [floats] in H. destruct (pyfloat w) as [x|] eqn:Ew; [|discriminate].
    destruct (floats pyfloat ws) as [xs|]; [|discriminate].
    cbn [mbind result_bind] in H. injection H as <-.
    destruct (IH xs eq_refl) as [Hl Hf]. split; [simpl; congruence|].
    constructor; [eexists; exact Ew | exact Hf].
Qed.

Lemma floats_total (ws : list string) :
  Forall (fun w => is_Some (pyfloat w)) ws -> exists vs, floats pyfloat ws = Ok vs.
Proof.
  induction 1 as [|w ws [x Hx] _ (vs & IH)]; [eexists; reflexivity|].
  exists (x :: vs). cbn [floats]. rewrite Hx, IH. reflexivity.
Qed.

(** A line on which the body of [countcolumnsvalues] raises is rejected,
    whatever the selection: [mincv] always exceeds the pair (0, 0). *)
Theorem unparsed_line_rejected (a : largs) (m : Z * Z) (line : string) (e : exn) :
  mincv_of (usecols a) = Ok m ->
  countcolumnsvalues_try pyfloat a line = Raise e ->
  countcolumnsvalues pyfloat a line = (0, 0) /\
  Py.pair_ltb (countcolumnsvalues pyfloat a line) m = true.
Proof.
  intros Hm He. unfold countcolumnsvalues. rewrite He. split; [reflexivity|].
  destruct (usecols a) as [cols|].
  - destruct (mincv_of_selection cols m Hm) as (H1 & _ & _).
    unfold Py.pair_ltb. cbn [fst snd].
    replace (0 <? m.1) with true by (symmetry; apply Z.ltb_lt; lia). reflexivity.
  - injection Hm as <-. reflexivity.
Qed.

(** With a selection, a line is accepted exactly when, after the trailing
    blank fields are dropped, every selected index (a negative one counted
    from the end) addresses a field and that field converts. The columns
    and values of an accepted line are the number of fields and the number
    of selected indices. *)
Theorem selection_accepts (a : largs) (cols : list Z) (m : Z * Z)
    (line : string) (ws : list string) :
  usecols a = Some cols ->
  mincv_of (usecols a) = Ok m ->
  Py.split (delimiter a) line = Ok ws ->
  (Py.pair_ltb (countcolumnsvalues pyfloat a line) m = false <->
   Forall (fun i => exists w, Py.index (Py.pop_blank ws) i = Ok w /\
                              is_Some (pyfloat w)) cols) /\
  (Py.pair_ltb (countcolumnsvalues pyfloat a line) m = false ->
   countcolumnsvalues pyfloat a line
   = (Z.of_nat (List.length (Py.pop_blank ws)), Z.of_nat (List.length cols))).
Proof.
  intros Hu Hm Hs. rewrite Hu in Hm.
  destruct (mincv_of_selection cols m Hm) as (H1 & Hleast & Hk).
  assert (Hcols : cols <> []) by (intros ->; discriminate).
  unfold countcolumnsvalues, countcolumnsvalues_try.
  rewrite Hs, Hu. cbn [mbind result_bind].
  destruct (floats_at pyfloat (Py.pop_blank ws) cols) as [vs|e] eqn:E;
    cbn [mbind result_bind].
  - destruct (floats_at_ok _ _ _ E) as [Hl Hf]. rewrite Hl. split.
    + split; [intros _; exact Hf | intros _].
      assert (Hn : m.1 <= Z.of_nat (List.length (Py.pop_blank ws))).
      { apply Hleast. split.
        - destruct cols as [|i cols]; [congruence|].
          apply Forall_cons in Hf. destruct Hf as [(w & Hw & _) _].
          apply index_ok_range in Hw. lia.
        - intros i Hi. rewrite Forall_forall in Hf.
          destruct (Hf i) as (w & Hw & _); [apply list_elem_of_In; exact Hi|].
          apply index_ok_range in Hw. exact Hw. }
      unfold Py.pair_ltb. cbn [fst snd].
      apply orb_false_iff. split; [apply Z.ltb_ge; lia|].
      apply andb_false_iff. right. apply Z.ltb_ge. lia.
    + reflexivity.
  - assert (Hrej : Py.pair_ltb (0, 0) m = true).
    { unfold Py.pair_ltb. cbn [fst snd].
      replace (0 <? m.1) with true by (symmetry; apply Z.ltb_lt; lia). reflexivity. }
    rewrite Hrej. split; [|discriminate]. split; [discriminate|].
    intros Hf. destruct (floats_at_total _ _ Hf) as (vs & Hvs). congruence.
Qed.

(** Without a selection, a line is accepted exactly when, after the
    trailing blank fields are dropped, it has at least one field and every
    field converts; its columns and values are then both the number of
    fields, and (0, 0) otherwise. *)
Theorem plain_line_accepts (a : largs) (line : string) (ws : list string) :
  usecols a = None ->
  Py.split (delimiter a) line = Ok ws ->
  let words := Py.pop_blank ws in
  let n := Z.of_nat (List.length words) in
  (Py.pair_ltb (countcolumnsvalues pyfloat a line) (1, 1) = false <->
   words <> [] /\ Forall (fun w => is_Some (pyfloat w)) words) /\
  (Forall (fun w => is_Some (pyfloat w)) words ->
   countcolumnsvalues pyfloat a line = (n, n)) /\
  (~ Forall (fun w => is_Some (pyfloat w)) words ->
   countcolumnsvalues pyfloat a line = (0, 0)).
Proof.
  intros Hu Hs words n. unfold countcolumnsvalues, countcolumnsvalues_try.
  rewrite Hs, Hu. cbn [mbind result_bind]. fold words.
  destruct (floats pyfloat words) as [vs|e] eqn:E; cbn [mbind result_bind].
  - destruct (floats_ok _ _ E) as [Hl Hf]. rewrite Hl. fold n.
    split; [|split; [reflexivity | intros Hn; contradiction]].
    unfold Py.pair_ltb. cbn [fst snd]. split.
    + intros H. split; [|exact Hf]. intros Hw.
      unfold n in H. rewrite Hw in H. discriminate.
    + intros [Hw _]. assert (1 <= n).
      { unfold n. destruct words; [congruence | simpl; lia]. }
      apply orb_false_iff. split; [apply Z.ltb_ge; lia|].
      apply andb_false_iff. right. apply Z.ltb_ge. lia.
  - split; [|split].
    + split; [discriminate|]. intros [_ Hf].
      destruct (floats_total _ Hf) as (vs & Hvs). congruence.
    + intros Hf. destruct (floats_total _ Hf) as (vs & Hvs). congruence.
    + reflexivity.
Qed.

End CountColumns.

(** The loop that drops trailing blank fields works from the end: a
    blank last field goes and the loop continues, a non-blank last field
    stops it, so blank fields before a non-blank one stay. *)
Theorem pop_blank_from_the_end (ws : list string) (w : string) :
  Py.pop_blank (ws ++ [w])
  = if Py.nonempty (Py.strip w) then (ws ++ [w])%list else Py.pop_blank ws.
Proof.
  induction ws as [|x ws IH].
  - simpl. destruct (Py.nonempty (Py.strip w)); reflexivity.
  - change (Py.pop_blank ((x :: ws) ++ [w]))
      with (match Py.pop_blank (ws ++ [w]) with
            | [] => if Py.nonempty (Py.strip x) then [x] else []
            | r => x :: r
            end).
    rewrite IH. destruct (Py.nonempty (Py.strip w)).
    + destruct ws; reflexivity.
    + reflexivity.
Qed.

(** ** loadData: the block that the scan finds *)

Lemma bytes_snoc (d : list string) (l : string) :
  Scan.bytes (d ++ [l]) = (Scan.bytes d + String.length l)%nat.
Proof.
  unfold Scan.bytes. rewrite join_app, string_length_app, join_cons.
  change (Py.join []) with "". rewrite string_app_empty_r. reflexivity.
Qed.

Lemma snoc_split {A} (d pre w : list A) (l : A) :
  (d ++ [l] = pre ++ w)%list -> w <> [] ->
  exists w', w = (w' ++ [l])%list /\ d = (pre ++ w')%list.
Proof.
  intros H Hw. destruct (exists_last Hw) as (w' & x & ->).
  rewrite app_assoc in H. apply app_inj_tail in H. destruct H as [-> ->].
  exists w'. split; reflexivity.
Qed.

Section FirstBlock.

Context {F : Type}.
Variable pyfloat : string -> option F.
Variable a : largs.
Variable mincv : Z * Z.
Hypothesis Hhdel : headers a = true -> hdel a <> "".
Hypothesis Hminrows : 1 <= minrows a.

Local Abbreviation run := (Scan.run pyfloat a mincv).
Local Abbreviation no_early_block := (Scan.no_early_block pyfloat a mincv).
Local Abbreviation candidate := (Scan.candidate pyfloat a mincv).

Lemma add_header_ok (l : string) (h : gmap string (hvalue F)) :
  exists h', add_header pyfloat a l h = Ok h'.
Proof.
  destruct (headers a) eqn:Hh.
  - rewrite (add_header_record pyfloat a l h Hh (Hhdel eq_refl)). eexists; reflexivity.
  - unfold add_header. rewrite Hh. eexists; reflexivity.
Qed.

Lemma run_snoc (c : Z * Z) (w : list string) (l : string) :
  run c (w ++ [l]) <-> run c w /\ countcolumnsvalues pyfloat a l = c.
Proof.
  unfold Scan.run. rewrite Forall_app, Forall_singleton. tauto.
Qed.

Lemma no_early_snoc (d : list string) (st : scan F) (l : string) :
  no_early_block d -> candidate d st ->
  (is_Some (start st) -> Z.of_nat (nrows st) < minrows a) ->
  no_early_block (d ++ [l]).
Proof.
  intros Hne Hc Hd pre w post c H Hpost Hrun.
  destruct (exists_last Hpost) as (post' & x & ->).
  rewrite !app_assoc in H. apply app_inj_tail in H. destruct H as [H _].
  rewrite <- app_assoc in H.
  destruct post' as [|y post'].
  - rewrite app_nil_r in H. unfold Scan.candidate in Hc.
    destruct (start st) as [p|].
    + destruct Hc as (_ & _ & _ & _ & _ & _ & _ & Hb).
      specialize (Hb pre w c H Hrun).
      specialize (Hd (ltac:(eexists; reflexivity))). lia.
    + rewrite (Hc pre w c H Hrun). simpl. lia.
  - apply (Hne pre w (y :: post') c H); [discriminate | exact Hrun].
Qed.

Lemma candidate_rejected (d : list string) (st st' : scan F) (l : string) :
  Py.pair_ltb (countcolumnsvalues pyfloat a l) mincv = true ->
  start st' = None -> candidate (d ++ [l]) st'.
Proof.
  intros Hrej Hs. unfold Scan.candidate. rewrite Hs.
  intros pre w c H Hrun. destruct w as [|x w]; [reflexivity|].
  destruct (snoc_split _ _ _ _ H) as (w' & Hw & _); [discriminate|].
  rewrite Hw in Hrun. apply run_snoc in Hrun. destruct Hrun as [[Hacc _] Hc].
  congruence.
Qed.

Lemma candidate_fresh (d : list string) (st st' : scan F) (l : string) :
  candidate d st ->
  Py.pair_ltb (countcolumnsvalues pyfloat a l) mincv = false ->
  (forall p, start st = Some p -> countcolumnsvalues pyfloat a l <> ncvblock st) ->
  start st' = Some (Scan.bytes d) ->
  ncvblock st' = countcolumnsvalues pyfloat a l ->
  nrows st' = 1%nat ->
  candidate (d ++ [l]) st'.
Proof.
  intros Hc Hacc Hfresh Hs Hn Hr. unfold Scan.candidate. rewrite Hs, Hn, Hr.
  exists d, [l]. repeat split; try discriminate.
  - exact Hacc.
  - repeat constructor.
  - intros pre' w c H Hrun. destruct w as [|x w]; [simpl; lia|].
    destruct (snoc_split _ _ _ _ H) as (w' & Hw & Hd); [discriminate|].
    rewrite Hw in Hrun |- *. apply run_snoc in Hrun. destruct Hrun as [Hrun Hcl].
    destruct w' as [|y w']; [simpl; lia|]. exfalso.
    unfold Scan.candidate in Hc. destruct (start st) as [p|] eqn:Est.
    + destruct (exists_last (l:=y :: w') ltac:(discriminate)) as (w'' & z & Ew).
      rewrite Ew in Hrun, Hd. apply run_snoc in Hrun. destruct Hrun as [_ Hz].
      destruct Hc as (pre0 & blk & Hd0 & _ & Hblk & Hrun0 & _ & _).
      destruct (exists_last Hblk) as (b' & z0 & ->).
      apply run_snoc in Hrun0. destruct Hrun0 as [_ Hz0].
      rewrite Hd0, !app_assoc in Hd. apply app_inj_tail in Hd. destruct Hd as [_ ->].
      apply (Hfresh p eq_refl). congruence.
    + specialize (Hc pre' (y :: w') c Hd Hrun). discriminate.
Qed.

Lemma candidate_continued (d : list string) (st st' : scan F) (l : string) (p : nat) :
  candidate d st ->
  start st = Some p ->
  countcolumnsvalues pyfloat a l = ncvblock st ->
  start st' = Some p -> ncvblock st' = ncvblock st -> nrows st' = S (nrows st) ->
  candidate (d ++ [l]) st'.
Proof.
  intros Hc Est Hcl Hs Hn Hr. unfold Scan.candidate in *.
  rewrite Est in Hc. rewrite Hs, Hn, Hr.
  destruct Hc as (pre & blk & Hd & Hlen & Hblk & Hrun & Hp & Hb).
  exists pre, (blk ++ [l])%list. repeat split.
  - rewrite Hd, app_assoc. reflexivity.
  - rewrite length_app. simpl. lia.
  - destruct blk; discriminate.
  - apply Hrun.
  - apply Forall_app. split; [apply Hrun | repeat constructor; exact Hcl].
  - exact Hp.
  - intros pre' w c H Hr'. destruct w as [|x w]; [simpl; lia|].
    destruct (snoc_split _ _ _ _ H) as (w' & Hw & Hd'); [discriminate|].
    rewrite Hw in Hr' |- *. apply run_snoc in Hr'. destruct Hr' as [Hr' _].
    specialize (Hb pre' w' c Hd' Hr'). rewrite length_app. simpl. lia.
Qed.

(** The invariant of the loop. From a state that describes the lines
    [done], the loop returns, and its final state describes the lines read
    in all. *)
Lemma scan_lines_candidate (lines : list string) :
  forall (done : list string) (st : scan F),
  (fpos st).2 = Scan.bytes done ->
  no_early_block done -> candidate done st ->
  (is_Some (start st) -> Z.of_nat (nrows st) < minrows a) ->
  exists read rest st',
    scan_lines pyfloat a mincv st lines = Ok (st', rest) /\
    lines = (read ++ rest)%list /\
    (fpos st').2 = Scan.bytes (done ++ read) /\
    no_early_block (done ++ read) /\
    candidate (done ++ read) st' /\
    (rest <> [] -> is_Some (start st')) /\
    (minrows a <= Z.of_nat (nrows st') -> is_Some (start st') -> read <> []) /\
    (rest <> [] -> minrows a <= Z.of_nat (nrows st')).
Proof.
  induction lines as [|l lines IH]; intros done st Hpos Hne Hc Hd.
  - exists [], [], st. rewrite (app_nil_r done).
    split; [reflexivity|]. split; [reflexivity|]. split; [exact Hpos|].
    split; [exact Hne|]. split; [exact Hc|]. split; [congruence|].
    split; [|congruence].
    intros Hge Hs. specialize (Hd Hs). lia.
  - cbn [scan_lines]. destruct (add_header_ok l (hdata st)) as (h & ->).
    cbn [mbind result_bind].
    pose proof (no_early_snoc done st l Hne Hc Hd) as Hne'.
    destruct (Py.pair_ltb (countcolumnsvalues pyfloat a l) mincv) eqn:Hlt.
    + match goal with |- context [scan_lines _ _ _ ?s lines] =>
        destruct (IH (done ++ [l])%list s) as
          (read & rest & st' & E & Hl & H1 & H2 & H3 & H4 & H5 & H6) end.
      * cbn [fpos snd]. rewrite bytes_snoc, Hpos. reflexivity.
      * exact Hne'.
      * apply (candidate_rejected done st); [exact Hlt | reflexivity].
      * cbn [start]. intros [? ?]. discriminate.
      * exists (l :: read), rest, st'. rewrite E.
        replace (done ++ l :: read)%list with ((done ++ [l]) ++ read)%list
          by (rewrite <- app_assoc; reflexivity).
        repeat split; try assumption; [simpl; congruence | discriminate].
    + set (ncv := countcolumnsvalues pyfloat a l) in *.
      set (fresh := match start st with
                    | Some _ => negb (bool_decide (ncv = ncvblock st))
                    | None => true
                    end).
      set (st1 := {| hdata := h;
                     fpos := ((fpos st).2, ((fpos st).2 + String.length l)%nat);
                     start := if fresh then Some (fpos st).2 else start st;
                     ncvblock := if fresh then ncv else ncvblock st;
                     nrows := S (if fresh then 0%nat else nrows st) |}).
      assert (Hc1 : candidate (done ++ [l]) st1).
      { unfold fresh in *. destruct (start st) as [p|] eqn:Est.
        - destruct (bool_decide (ncv = ncvblock st)) eqn:Eb.
          + apply bool_decide_eq_true in Eb.
            apply (candidate_continued done st st1 l p); try assumption; reflexivity.
          + apply bool_decide_eq_false in Eb.
            apply (candidate_fresh done st st1 l); try assumption.
            * intros p' _. exact Eb.
            * cbn. rewrite Hpos. reflexivity.
            * reflexivity.
            * reflexivity.
        - apply (candidate_fresh done st st1 l); try assumption.
          + intros p' Hp'. rewrite Est in Hp'. discriminate.
          + cbn. rewrite Hpos. reflexivity.
          + reflexivity.
          + reflexivity. }
      assert (Hs1 : is_Some (start st1)).
      { unfold st1, fresh. cbn [start]. destruct (start st); [|eexists; reflexivity].
        destruct (negb _); eexists; reflexivity. }
      assert (Hp1 : (fpos st1).2 = Scan.bytes (done ++ [l])).
      { cbn [st1 fpos snd]. rewrite bytes_snoc, Hpos. reflexivity. }
      change (exists read rest st',
        (if minrows a <=? Z.of_nat (nrows st1) then Ok (st1, lines)
         else scan_lines pyfloat a mincv st1 lines) = Ok (st', rest) /\
        l :: lines = (read ++ rest)%list /\
        (fpos st').2 = Scan.bytes (done ++ read) /\
        no_early_block (done ++ read) /\
        candidate (done ++ read) st' /\
        (rest <> [] -> is_Some (start st')) /\
        (minrows a <= Z.of_nat (nrows st') -> is_Some (start st') -> read <> []) /\
        (rest <> [] -> minrows a <= Z.of_nat (nrows st'))).
      destruct (minrows a <=? Z.of_nat (nrows st1)) eqn:Hstop.
      * exists [l], lines, st1. apply Z.leb_le in Hstop.
        split; [reflexivity|]. split; [reflexivity|]. split; [exact Hp1|].
        split; [exact Hne'|]. split; [exact Hc1|]. split; [intros _; exact Hs1|].
        split; [intros _ _; discriminate | intros _; exact Hstop].
      * apply Z.leb_gt in Hstop.
        destruct (IH (done ++ [l])%list st1 Hp1 Hne' Hc1 (fun _ => Hstop)) as
          (read & rest & st' & E & Hl & H1 & H2 & H3 & H4 & H5 & H6).
        exists (l :: read), rest, st'. rewrite E.
        replace (done ++ l :: read)%list with ((done ++ [l]) ++ read)%list
          by (rewrite <- app_assoc; reflexivity).
        repeat split; try assumption; [simpl; congruence | discriminate].
Qed.

End FirstBlock.

(** ** loadData: the header dictionary *)

Section HeadersRecorded.

Context {F : Type}.
Variable pyfloat : string -> option F.
Variable loadtxt : string -> option string -> list Z -> result (list (list F)).

(** The loop reads [minrows] only in the test of line 138, against a
    counter that is at least 1 there. *)
Lemma scan_lines_threshold (a a' : largs) (mincv : Z * Z) :
  headers a' = headers a -> hdel a' = hdel a -> hignore a' = hignore a ->
  delimiter a' = delimiter a -> usecols a' = usecols a ->
  (forall k : nat,
     (minrows a' <=? Z.of_nat (S k)) = (minrows a <=? Z.of_nat (S k))) ->
  forall (lines : list string) (st : scan F),
    scan_lines pyfloat a' mincv st lines = scan_lines pyfloat a mincv st lines.
Proof.
  intros H1 H2 H3 H4 H5 Hm lines.
  assert (Hadd : forall l h, add_header pyfloat a' l h = add_header pyfloat a l h).
  { intros l h. unfold add_header, header_pair. rewrite H1, H2, H3. reflexivity. }
  assert (Hcnt : forall l,
            countcolumnsvalues pyfloat a' l = countcolumnsvalues pyfloat a l).
  { intros l. unfold countcolumnsvalues, countcolumnsvalues_try.
    rewrite H4, H5. reflexivity. }
  induction lines as [|l lines IH]; intros st; [reflexivity|].
  cbn [scan_lines]. rewrite Hadd, Hcnt.
  destruct (add_header pyfloat a l (hdata st)) as [h|e]; [|reflexivity].
  cbn [mbind result_bind]. cbv zeta. rewrite Hm.
  destruct (Py.pair_ltb _ mincv); [apply IH|].
  destruct (_ <=? _); [reflexivity | apply IH].
Qed.


End HeadersRecorded.


Lemma seek_app (s t : string) : seek (String.length s) (s ++ t) = t.
Proof.
  induction s as [|c s IH]; [destruct t; reflexivity|].
  rewrite string_app_cons. simpl. exact IH.
Qed.

Lemma readlines_nonempty (file : string) :
  file <> "" -> Py.readlines file <> [].
Proof.
  intros Hf Hl. apply Hf. rewrite <- (join_readlines file), Hl. reflexivity.
Qed.

Section LoadDataReturns.

Context {F : Type}.
Variable pyfloat : string -> option F.
Variable loadtxt : string -> option string -> list Z -> result (list (list F)).


Lemma scan_lines_total (a : largs) (mincv : Z * Z) :
  (headers a = true -> hdel a <> "") ->
  forall (lines : list string) (st : scan F),
  exists st' rest, scan_lines pyfloat a mincv st lines = Ok (st', rest).
Proof.
  intros Hh lines. induction lines as [|l lines IH]; intros st.
  - eexists _, _. reflexivity.
  - cbn [scan_lines]. destruct (add_header_ok pyfloat a Hh l (hdata st)) as (h & ->).
    cbn [mbind result_bind].
    destruct (Py.pair_ltb _ mincv); [apply IH|].
    match goal with |- context [if ?c then _ else _] => destruct c end;
      [eexists _, _; reflexivity | apply IH].
Qed.


(** [loadData] raises on its arguments alone in two cases, an empty
    selection and, with headers, an empty delimiter on a non-empty file;
    with other arguments it absorbs every malformed line, and an exception
    can only come out of [loadtxt]. *)
Theorem loadData_exceptions (file : string) (a : largs) :
  (usecols a = Some [] -> loadData pyfloat loadtxt file a = Raise ValueError) /\
  (usecols a <> Some [] -> headers a = true -> hdel a = "" -> file <> "" ->
   loadData pyfloat loadtxt file a = Raise ValueError) /\
  (usecols a <> Some [] -> (headers a = true -> hdel a <> "") ->
   forall e, loadData pyfloat loadtxt file a = Raise e ->
   headers a = false /\
   exists stream cols, loadtxt stream (delimiter a) cols = Raise e).
Proof.
  split; [|split].
  - intros Hu. unfold loadData. rewrite Hu. reflexivity.
  - intros Hu Hh Hd Hf. destruct (mincv_of_ok (usecols a) Hu) as (mincv & Hmin).
    unfold loadData. rewrite Hmin. cbn [mbind result_bind].
    destruct (Py.readlines file) as [|l lines] eqn:El;
      [exfalso; exact (readlines_nonempty file Hf El)|].
    cbn [scan_lines]. unfold add_header, header_pair. rewrite Hh, Hd. reflexivity.
  - intros Hu Hh e He. destruct (mincv_of_ok (usecols a) Hu) as (mincv & Hmin).
    destruct (scan_lines_total a mincv Hh (Py.readlines file) scan0) as (st & rest & E).
    unfold loadData in He. rewrite Hmin in He. cbn [mbind result_bind] in He.
    rewrite E in He. cbn [mbind result_bind] in He.
    destruct (headers a); [discriminate|]. split; [reflexivity|].
    destruct (start st) as [p|]; [|discriminate].
    match type of He with context [loadtxt ?s ?d ?c] =>
      destruct (loadtxt s d c) as [rows|e'] eqn:El; [discriminate|];
      exists s, c end.
    cbn [mbind result_bind] in He. congruence.
Qed.

End LoadDataReturns.



Lemma unparsed_line_rejected_witness :
  countcolumnsvalues IntFloat.float defaults "abc" = (0, 0) /\
  Py.pair_ltb (countcolumnsvalues IntFloat.float defaults "abc") (1, 1) = true.
Proof.
  apply (unparsed_line_rejected IntFloat.float defaults (1, 1) "abc" ValueError);
    reflexivity.
Defined.

Lemma selection_accepts_witness :
  Py.pair_ltb
    (countcolumnsvalues IntFloat.float
       {| minrows := 10; headers := false; hdel := "="; hignore := None;
          delimiter := None; usecols := Some [0; -1] |} "1 x 3") (1, 2) = false.
Proof.
  apply (proj1 (selection_accepts IntFloat.float
           {| minrows := 10; headers := false; hdel := "="; hignore := None;
              delimiter := None; usecols := Some [0; -1] |}
           [0; -1] (1, 2) "1 x 3" ["1"; "x"; "3"] eq_refl eq_refl eq_refl)).
  repeat constructor; [exists "1" | exists "3"]; split; try reflexivity;
    eexists; reflexivity.
Defined.

Lemma plain_line_accepts_witness :
  countcolumnsvalues IntFloat.float
    {| minrows := 10; headers := false; hdel := "="; hignore := None;
       delimiter := Some ","; usecols := None |} "1,2,,"
  = (2, 2).
Proof.
  apply (proj1 (proj2 (plain_line_accepts IntFloat.float
           {| minrows := 10; headers := false; hdel := "="; hignore := None;
              delimiter := Some ","; usecols := None |}
           "1,2,," ["1"; "2"; ""; ""] eq_refl eq_refl))).
  repeat constructor; eexists; reflexivity.
Defined.

Lemma loadData_exceptions_witness :
  headers (scenario_args 1) = true /\
  loadData_int ("x" ++ nl)%string
    {| minrows := 1; headers := true; hdel := ""; hignore := None;
       delimiter := None; usecols := None |} = Raise ValueError.
Proof.
  split; [reflexivity|].
  apply (proj1 (proj2 (loadData_exceptions IntFloat.float
           (Loadtxt.loadtxt IntFloat.float) ("x" ++ nl)%string
           {| minrows := 1; headers := true; hdel := ""; hignore := None;
              delimiter := None; usecols := None |})));
    [discriminate | reflexivity | reflexivity | discriminate].
Defined.

(** ** TextDataLoader: words and line records *)

Lemma split_ws_aux_app_space (s1 s2 : string) (cur : list ascii) (c : ascii) :
  Py.isspace c = true ->
  Py.split_ws_aux cur (s1 ++ String c s2)
  = (Py.split_ws_aux cur (s1 ++ String c "") ++ Py.split_ws_aux [] s2)%list.
Proof.
  intros Hc. revert cur. induction s1 as [|x s1 IH]; intros cur.
  - rewrite !string_app_nil. simpl. rewrite Hc. destruct cur; reflexivity.
  - rewrite !string_app_cons. simpl. destruct (Py.isspace x).
    + destruct cur; rewrite IH; reflexivity.
    + apply IH.
Qed.

Lemma rev_string_cons (c : ascii) (cur : list ascii) :
  Py.rev_string (c :: cur) = (Py.rev_string cur ++ String c "")%string.
Proof.
  unfold Py.rev_string. simpl List.rev. rewrite string_app_of_list. reflexivity.
Qed.

Lemma readlines_aux_words (s : string) (cur : list ascii) :
  List.concat (List.map Py.split_ws (Py.readlines_aux cur s))
  = Py.split_ws (Py.rev_string cur ++ s).
Proof.
  revert cur. induction s as [|c s IH]; intros cur.
  - rewrite string_app_empty_r. simpl. destruct cur as [|x cur]; [reflexivity|].
    simpl. apply app_nil_r.
  - simpl. destruct (Ascii.eqb c "010") eqn:E.
    + apply Ascii.eqb_eq in E. subst c.
      cbn [List.map List.concat]. rewrite IH. unfold Py.split_ws.
      rewrite split_ws_aux_app_space by reflexivity.
      rewrite rev_string_cons. reflexivity.
    + rewrite IH, rev_string_cons, string_app_assoc. reflexivity.
Qed.

(** The words of a file are the words of its lines, in order: [_words]
    is the concatenation of [_splitlines] when the lines are those of a
    stream. *)
Lemma words_of_lines (file : string) :
  Py.split_ws (Py.join (Py.readlines file))
  = List.concat (List.map Py.split_ws (Py.readlines file)).
Proof.
  rewrite join_readlines. unfold Py.readlines.
  rewrite readlines_aux_words. reflexivity.
Qed.

Lemma cumsum_from_length (l : list nat) (acc : nat) :
  List.length (Np.cumsum_from acc l) = List.length l.
Proof. revert acc. induction l; intros acc; simpl; congruence. Qed.

Lemma cumsum_from_lookup {A} (ls : list (list A)) (acc i : nat) (x : list A) :
  ls !! i = Some x ->
  Np.cumsum_from acc (List.map (@List.length A) ls) !! i
  = Some (acc + List.length (List.concat (take (S i) ls)))%nat.
Proof.
  revert acc i. induction ls as [|y ls IH]; intros acc i H; [discriminate|].
  destruct i as [|i].
  - simpl. rewrite app_nil_r. reflexivity.
  - simpl in H. cbn [List.map Np.cumsum_from]. rewrite lookup_cons.
    rewrite (IH _ _ H).
    change (take (S (S i)) (y :: ls)) with (y :: take (S i) ls).
    cbn [List.concat]. rewrite length_app. f_equal. lia.
Qed.

Section LineRecords.

Import TextDataLoader.

(** The record of line [i] has [idx = i], the number of words of the
    line as [nf], and [nw0], [nw1] are the numbers of words before the line
    and up to its end: [nw0:nw1] is the range of the line's words in the
    list of all words. *)
Lemma linerecs_ranges (splitlines : list (list string)) :
  List.length (linerecs splitlines) = List.length splitlines /\
  forall i sl, splitlines !! i = Some sl ->
    exists r, linerecs splitlines !! i = Some r /\
      idx r = i /\ nf r = List.length sl /\ ok r = true /\
      nw0 r = List.length (List.concat (take i splitlines)) /\
      nw1 r = (nw0 r + nf r)%nat /\
      Py.slice (nw0 r) (nw1 r) (List.concat splitlines) = sl.
Proof.
  unfold linerecs. split.
  - rewrite length_imap, length_zip, length_map.
    unfold Np.cumsum. rewrite cumsum_from_length, length_map. lia.
  - intros i sl Hi. rewrite list_lookup_imap, lookup_zip_with.
    rewrite list_lookup_fmap, Hi. cbn [fmap option_fmap option_map mbind option_bind].
    unfold Np.cumsum. rewrite (cumsum_from_lookup _ _ _ _ Hi).
    cbn [mbind option_bind fmap option_fmap option_map].
    eexists. split; [reflexivity|]. cbn [idx nf ok nw0 nw1].
    assert (Ht : take (S i) splitlines = (take i splitlines ++ [sl])%list).
    { apply take_S_r. exact Hi. }
    assert (Hlen : List.length (List.concat (take (S i) splitlines))
                   = (List.length (List.concat (take i splitlines)) + List.length sl)%nat).
    { rewrite Ht, concat_app, length_app. simpl. rewrite app_nil_r. reflexivity. }
    rewrite Hlen. repeat split; try lia.
    unfold Py.slice.
    set (n0 := List.length (List.concat (take i splitlines))).
    assert (Hcat : List.concat splitlines
                   = (List.concat (take i splitlines)
                      ++ sl ++ List.concat (drop (S i) splitlines))%list).
    { rewrite <- (take_drop_middle splitlines i sl Hi) at 1.
      rewrite concat_app. reflexivity. }
    rewrite Hcat.
    replace (0 + (n0 + List.length sl) - List.length sl)%nat with n0 by lia.
    replace (0 + (n0 + List.length sl) - n0)%nat with (List.length sl) by lia.
    unfold n0. rewrite drop_app_length. apply take_app_length.
Qed.

(** For the lines of a stream, the record of line [i] gives the place of
    the line's words among the words of the whole file: [_words[nw0:nw1]]
    is the list of words of line [i], [nf] is their number and [idx] is
    [i]. *)
Theorem line_words_range (file : string) (i : nat) (l : string) :
  Py.readlines file !! i = Some l ->
  exists r,
    linerecs (List.map Py.split_ws (Py.readlines file)) !! i = Some r /\
    idx r = i /\ nf r = List.length (Py.split_ws l) /\
    nw1 r = (nw0 r + nf r)%nat /\
    Py.slice (nw0 r) (nw1 r) (Py.split_ws (Py.join (Py.readlines file)))
    = Py.split_ws l.
Proof.
  intros Hi.
  destruct (linerecs_ranges (List.map Py.split_ws (Py.readlines file))) as [_ Hr].
  destruct (Hr i (Py.split_ws l)) as (r & Hr0 & Hidx & Hnf & _ & _ & Hnw1 & Hsl).
  - rewrite list_lookup_fmap, Hi. reflexivity.
  - exists r. rewrite words_of_lines. repeat split; assumption.
Qed.

End LineRecords.

(** ** TextDataLoader: the shape of a dataset *)

Lemma chunks_concat {A} (fuel n : nat) (a : list A) :
  (1 <= n)%nat -> (List.length a <= fuel)%nat -> (List.length a mod n = 0)%nat ->
  List.concat (Np.chunks fuel n a) = a /\
  Forall (fun r => List.length r = n) (Np.chunks fuel n a).
Proof.
  intros Hn. revert a. induction fuel as [|fuel IH]; intros a Hf Hm.
  - destruct a; [split; [reflexivity | constructor] | simpl in Hf; lia].
  - destruct a as [|x a]; [split; [reflexivity | constructor]|].
    cbn [Np.chunks].
    apply Nat.Div0.mod_divides in Hm. destruct Hm as [q Hq].
    assert (Hq1 : (1 <= q)%nat) by (destruct q; [simpl in Hq; lia | lia]).
    assert (Hlen : (n <= List.length (x :: a))%nat) by nia.
    destruct (IH (drop n (x :: a))) as [Hc Hr].
    + rewrite length_drop. simpl in *. lia.
    + rewrite length_drop, Hq.
      replace (n * q - n)%nat with ((q - 1) * n)%nat by nia.
      apply Nat.Div0.mod_mul.
    + split.
      * cbn [List.concat]. rewrite Hc. apply take_drop.
      * constructor; [|exact Hr]. rewrite length_take. lia.
Qed.

Lemma length_every {A} (n k : nat) (l : list A) :
  (k <= n)%nat ->
  List.length (Np.every (S n) k l) = ((List.length l + n - k) / S n)%nat.
Proof.
  revert k. induction l as [|x l IH]; intros k Hk.
  - cbn [Np.every List.length]. symmetry. apply Nat.div_small. lia.
  - destruct k as [|k]; cbn [Np.every List.length].
    + replace (S n - 1)%nat with n by lia. rewrite IH by lia.
      replace (List.length l + n - n)%nat with (List.length l) by lia.
      replace (S (List.length l) + n - 0)%nat with (List.length l + 1 * S n)%nat by lia.
      rewrite Nat.div_add by lia. lia.
    + rewrite IH by lia. reflexivity.
Qed.

Lemma heads_length {A} (m : nat) (rows : list (list A)) :
  Forall (fun r => List.length r = S m) rows ->
  List.length (Np.heads rows) = List.length rows.
Proof.
  induction 1 as [|r rows Hr _ IH]; [reflexivity|].
  destruct r; [discriminate|]. simpl. congruence.
Qed.

Lemma transpose_shape {A} (m : nat) (rows : list (list A)) :
  Forall (fun r => List.length r = m) rows ->
  List.length (Np.transpose m rows) = m /\
  Forall (fun r => List.length r = List.length rows) (Np.transpose m rows).
Proof.
  revert rows. induction m as [|m IH]; intros rows H.
  - split; [reflexivity | constructor].
  - cbn [Np.transpose].
    assert (H' : Forall (fun r => List.length r = m) (List.map (drop 1) rows)).
    { apply Forall_forall. intros r Hr.
      apply list_elem_of_In, in_map_iff in Hr. destruct Hr as (r0 & <- & Hr0).
      rewrite Forall_forall in H. specialize (H r0 (proj2 (list_elem_of_In _ _) Hr0)).
      rewrite length_drop. lia. }
    destruct (IH _ H') as [Hl Hf]. rewrite length_map in Hf. split.
    + simpl. congruence.
    + constructor; [apply (heads_length m); exact H | exact Hf].
Qed.

Section Shapes.

Import TextDataLoader.

Context {F : Type}.

(** Without a selection a dataset is the cells [nw0:nw1] of the values
    cut into rows of the block's width, in order; the extraction raises a
    [ValueError] exactly when the number of cells is not a multiple of the
    width. *)
Theorem extract_all_columns (values : list F) (bb1 ee1 : linerec) (dbeg dend : Z) :
  let cells := Py.slice (nw0 bb1) (nw1 ee1) values in
  ((nf bb1 <> 0)%nat /\ (List.length cells mod nf bb1 = 0)%nat ->
   exists data,
     extract None values bb1 ee1 dbeg dend = Ok data /\
     List.concat data = cells /\
     Forall (fun row => List.length row = nf bb1) data) /\
  ((nf bb1 = 0)%nat \/ (List.length cells mod nf bb1 <> 0)%nat ->
   extract None values bb1 ee1 dbeg dend = Raise ValueError).
Proof.
  intros cells. unfold extract, Np.reshape. fold cells. split.
  - intros [Hn Hm]. destruct (nf bb1) as [|n] eqn:En; [congruence|].
    rewrite Hm. cbn [Nat.eqb].
    destruct (chunks_concat (List.length cells) (S n) cells) as [Hc Hr]; try lia.
    eexists. split; [reflexivity|]. split; assumption.
  - intros [Hn|Hm].
    + rewrite Hn. reflexivity.
    + destruct (nf bb1) as [|n]; [reflexivity|].
      destruct (_ =? 0)%nat eqn:E; [apply Nat.eqb_eq in E; contradiction | reflexivity].
Qed.

Lemma select_cols_shape (values : list F) (bb1 ee1 : linerec) (m : nat)
    (cols : list Z) (tdata : list (list F)) :
  select_cols values bb1 ee1 m cols = Ok tdata ->
  List.length tdata = List.length cols /\
  Forall (fun r => List.length r = m) tdata.
Proof.
  revert tdata. induction cols as [|j cols IH]; intros tdata H.
  - injection H as <-. split; [reflexivity | constructor].
  - cbn [select_cols] in H.
    destruct (Np.strided _ _ _ values) as [rhs|]; [|discriminate].
    cbn [mbind result_bind] in H.
    destruct (Np.assign m rhs) as [trow|] eqn:Ea; [|discriminate].
    cbn [mbind result_bind] in H.
    destruct (select_cols values bb1 ee1 m cols) as [rest|]; [|discriminate].
    cbn [mbind result_bind] in H. injection H as <-.
    destruct (IH rest eq_refl) as [Hl Hf]. split; [simpl; congruence|].
    constructor; [|exact Hf]. unfold Np.assign in Ea.
    destruct (List.length rhs =? m)%nat eqn:E.
    + apply Nat.eqb_eq in E. congruence.
    + destruct rhs as [|x [|y r]]; try discriminate.
      injection Ea as <-. apply length_replicate.
Qed.

(** With a selection a dataset, when the extraction returns, has
    [dend - dbeg] rows, one less than the rows [dbeg..dend] of the block,
    each of as many cells as there are selected columns. *)
Theorem extract_selection_shape (cols : list Z) (values : list F)
    (bb1 ee1 : linerec) (dbeg dend : Z) (data : list (list F)) :
  extract (Some cols) values bb1 ee1 dbeg dend = Ok data ->
  Z.of_nat (List.length data) = dend - dbeg /\
  Forall (fun row => List.length row = List.length cols) data.
Proof.
  unfold extract. intros H. destruct (dend - dbeg <? 0) eqn:Hneg; [discriminate|].
  apply Z.ltb_ge in Hneg.
  destruct (select_cols _ _ _ _ cols) as [tdata|] eqn:E; [|discriminate].
  cbn [mbind result_bind] in H. injection H as <-.
  destruct (select_cols_shape _ _ _ _ _ _ E) as [Hl Hf].
  destruct (transpose_shape _ _ Hf) as [Hl' Hf']. split.
  - rewrite Hl'. lia.
  - rewrite Hl in Hf'. exact Hf'.
Qed.

Lemma select_cols_raises (j : Z) (cols : list Z) (values : list F)
    (bb1 ee1 : linerec) (rows : nat) :
  (1 <= nf bb1)%nat -> (2 <= rows)%nat ->
  (nw0 bb1 + rows * nf bb1 <= nw1 ee1)%nat ->
  (nw1 ee1 <= List.length values)%nat ->
  select_cols values bb1 ee1 (rows - 1) (j :: cols) = Raise ValueError.
Proof.
  intros Hnf Hrows Hcells Hvals.
  cbn [select_cols]. unfold Np.strided.
  destruct (nf bb1) as [|n] eqn:En; [lia|].
  cbn [mbind result_bind].
  assert (Hj : 0 <= resolve bb1 j < Z.of_nat (S n)).
  { unfold resolve. rewrite En. simpl Nat.eqb. cbn iota.
    apply Z.mod_pos_bound. lia. }
  set (j' := Z.to_nat (resolve bb1 j)).
  assert (Hj' : (j' < S n)%nat) by (unfold j'; lia).
  set (rhs := Np.every (S n) 0 (Py.slice (nw0 bb1 + j') (nw1 ee1) values)).
  assert (Hlen : (rows <= List.length rhs)%nat).
  { unfold rhs. rewrite length_every by lia. unfold Py.slice.
    rewrite length_take, length_drop.
    replace (Nat.min (nw1 ee1 - (nw0 bb1 + j'))
               (List.length values - (nw0 bb1 + j')))
      with (nw1 ee1 - (nw0 bb1 + j'))%nat by lia.
    apply Nat.div_le_lower_bound; [lia|]. nia. }
  unfold Np.assign.
  destruct (List.length rhs =? rows - 1)%nat eqn:E;
    [apply Nat.eqb_eq in E; lia|].
  destruct rhs as [|x [|y r]]; simpl in Hlen; try lia; reflexivity.
Qed.

(** With a non-empty selection, a block of two or more rows whose cells
    are all there raises a [ValueError]: the column read has a cell per
    row and the array row that receives it has one cell less. *)
Theorem extract_selection_raises (j : Z) (cols : list Z) (values : list F)
    (bb1 ee1 : linerec) (dbeg dend : Z) (rows : nat) :
  (1 <= nf bb1)%nat -> (2 <= rows)%nat ->
  dend - dbeg = Z.of_nat rows - 1 ->
  (nw0 bb1 + rows * nf bb1 <= nw1 ee1)%nat ->
  (nw1 ee1 <= List.length values)%nat ->
  extract (Some (j :: cols)) values bb1 ee1 dbeg dend = Raise ValueError.
Proof.
  intros Hnf Hrows Hd Hcells Hvals. unfold extract.
  replace (dend - dbeg <? 0) with false by (symmetry; apply Z.ltb_ge; lia).
  replace (Z.to_nat (dend - dbeg)) with (rows - 1)%nat by lia.
  rewrite (select_cols_raises j cols values bb1 ee1 rows Hnf Hrows Hcells Hvals).
  reflexivity.
Qed.

End Shapes.

Lemma extract_all_columns_witness :
  exists data,
    TextDataLoader.extract None [10; 20; 30; 40]
      {| TextDataLoader.idx := 0; TextDataLoader.nw0 := 0; TextDataLoader.nw1 := 2;
         TextDataLoader.nf := 2; TextDataLoader.ok := true |}
      {| TextDataLoader.idx := 1; TextDataLoader.nw0 := 2; TextDataLoader.nw1 := 4;
         TextDataLoader.nf := 2; TextDataLoader.ok := true |} 0 1 = Ok data /\
    List.concat data = [10; 20; 30; 40].
Proof.
  destruct (proj1 (extract_all_columns [10; 20; 30; 40]
      {| TextDataLoader.idx := 0; TextDataLoader.nw0 := 0; TextDataLoader.nw1 := 2;
         TextDataLoader.nf := 2; TextDataLoader.ok := true |}
      {| TextDataLoader.idx := 1; TextDataLoader.nw0 := 2; TextDataLoader.nw1 := 4;
         TextDataLoader.nf := 2; TextDataLoader.ok := true |} 0 1))
    as (data & H1 & H2 & _).
  - split; [discriminate | reflexivity].
  - exists data. split; assumption.
Defined.

Lemma extract_selection_shape_witness :
  TextDataLoader.extract (Some [0]) [10; 20; 30; 40; 50; 60; 70; 80]
    {| TextDataLoader.idx := 1; TextDataLoader.nw0 := 2; TextDataLoader.nw1 := 4;
       TextDataLoader.nf := 2; TextDataLoader.ok := true |}
    {| TextDataLoader.idx := 4; TextDataLoader.nw0 := 7; TextDataLoader.nw1 := 8;
       TextDataLoader.nf := 1; TextDataLoader.ok := true |} 1 4
  = Ok [[30]; [50]; [70]]
  /\ Z.of_nat (List.length [[30]; [50]; [70]]) = 4 - 1
  /\ Forall (fun row : list Z => List.length row = 1%nat) [[30]; [50]; [70]].
Proof.
  split; [reflexivity|].
  apply (extract_selection_shape [0] [10; 20; 30; 40; 50; 60; 70; 80]
      {| TextDataLoader.idx := 1; TextDataLoader.nw0 := 2; TextDataLoader.nw1 := 4;
         TextDataLoader.nf := 2; TextDataLoader.ok := true |}
      {| TextDataLoader.idx := 4; TextDataLoader.nw0 := 7; TextDataLoader.nw1 := 8;
         TextDataLoader.nf := 1; TextDataLoader.ok := true |} 1 4).
  reflexivity.
Defined.

Lemma extract_selection_raises_witness :
  TextDataLoader.extract (Some [0]) [10; 20; 30; 40]
      {| TextDataLoader.idx := 0; TextDataLoader.nw0 := 0; TextDataLoader.nw1 := 2;
         TextDataLoader.nf := 2; TextDataLoader.ok := true |}
      {| TextDataLoader.idx := 1; TextDataLoader.nw0 := 2; TextDataLoader.nw1 := 4;
         TextDataLoader.nf := 2; TextDataLoader.ok := true |} 0 1
  = Raise ValueError.
Proof.
  apply (extract_selection_raises 0 [] [10; 20; 30; 40] _ _ 0 1 2); simpl; lia.
Defined.

(** ** TextDataLoader: what a selection extracts *)

Section SelectionFails.

Import TextDataLoader.

Context {F : Type}.

(** A block of one row: each column read has one cell, which broadcasts
    into an array row of no cell. *)
Lemma select_cols_one_row (cols : list Z) (values : list F) (bb1 ee1 : linerec) :
  (1 <= nf bb1)%nat ->
  nw1 ee1 = (nw0 bb1 + nf bb1)%nat ->
  (nw1 ee1 <= List.length values)%nat ->
  select_cols values bb1 ee1 0 cols = Ok (List.map (fun _ => []) cols).
Proof.
  intros Hnf Hcells Hvals. induction cols as [|j cols IH]; [reflexivity|].
  cbn [select_cols]. unfold Np.strided.
  destruct (nf bb1) as [|n] eqn:En; [lia|].
  cbn [mbind result_bind].
  assert (Hj : 0 <= resolve bb1 j < Z.of_nat (S n)).
  { unfold resolve. rewrite En. simpl Nat.eqb. cbn iota.
    apply Z.mod_pos_bound. lia. }
  set (j' := Z.to_nat (resolve bb1 j)).
  assert (Hj' : (j' < S n)%nat) by (unfold j'; lia).
  set (rhs := Np.every (S n) 0 (Py.slice (nw0 bb1 + j') (nw1 ee1) values)).
  assert (Hlen : List.length rhs = 1%nat).
  { unfold rhs. rewrite length_every by lia. unfold Py.slice.
    rewrite length_take, length_drop.
    replace (Nat.min (nw1 ee1 - (nw0 bb1 + j'))
               (List.length values - (nw0 bb1 + j')))
      with (nw1 ee1 - (nw0 bb1 + j'))%nat by lia.
    rewrite Hcells.
    replace (nw0 bb1 + S n - (nw0 bb1 + j') + n - 0)%nat
      with ((n - j') + 1 * S n)%nat by lia.
    rewrite Nat.div_add by lia. rewrite Nat.div_small by lia. reflexivity. }
  destruct rhs as [|x [|y r]]; try discriminate.
  cbn [Np.assign List.length Nat.eqb replicate mbind result_bind].
  rewrite IH. reflexivity.
Qed.

End SelectionFails.



(** ** TextDataLoader: when the classification of words raises *)

Lemma cumsum_from_app (l1 l2 : list nat) (acc : nat) :
  Np.cumsum_from acc (l1 ++ l2)
  = (Np.cumsum_from acc l1 ++ Np.cumsum_from (acc + sum_list l1) l2)%list.
Proof.
  revert acc. induction l1 as [|x l1 IH]; intros acc.
  - simpl. rewrite Nat.add_0_r. reflexivity.
  - simpl. rewrite IH. do 3 f_equal. lia.
Qed.

Lemma cumsum_from_le (l : list nat) (acc x : nat) :
  In x (Np.cumsum_from acc l) -> (x <= acc + sum_list l)%nat.
Proof.
  revert acc. induction l as [|y l IH]; intros acc H; [destruct H|].
  simpl in *. destruct H as [<-|H]; [lia|]. apply IH in H. lia.
Qed.

Lemma cumsum_from_last (l : list nat) (acc : nat) :
  l <> [] -> In (acc + sum_list l)%nat (Np.cumsum_from acc l).
Proof.
  revert acc. induction l as [|y l IH]; intros acc H; [congruence|].
  simpl. destruct l as [|z l].
  - left. simpl. lia.
  - right. replace (acc + (y + sum_list (z :: l)))%nat
      with ((acc + y) + sum_list (z :: l))%nat by lia.
    apply IH. discriminate.
Qed.

Lemma sum_list_lengths {A} (ls : list (list A)) :
  sum_list (List.map (@List.length A) ls) = List.length (List.concat ls).
Proof.
  induction ls as [|x ls IH]; [reflexivity|].
  simpl. rewrite length_app, IH. reflexivity.
Qed.

Lemma put_ok {A} (idxs : list nat) (v : A) (a : list A) :
  Forall (fun i => (i < List.length a)%nat) idxs ->
  exists a', Np.put idxs v a = Ok a' /\ List.length a' = List.length a.
Proof.
  revert a. induction idxs as [|i idxs IH]; intros a H.
  - exists a. split; reflexivity.
  - apply Forall_cons in H. destruct H as [Hi H]. cbn [Np.put].
    replace (i <? List.length a)%nat with true by (symmetry; apply Nat.ltb_lt; exact Hi).
    destruct (IH (<[i := v]> a)) as (a' & E & Hl).
    + rewrite length_insert. exact H.
    + exists a'. split; [exact E|]. rewrite Hl. apply length_insert.
Qed.

Lemma put_raise {A} (idxs : list nat) (v : A) (a : list A) (i : nat) :
  In i idxs -> (List.length a <= i)%nat -> Np.put idxs v a = Raise IndexError.
Proof.
  revert a. induction idxs as [|j idxs IH]; intros a Hin Hi; [destruct Hin|].
  cbn [Np.put]. destruct (j <? List.length a)%nat eqn:E; [|reflexivity].
  destruct Hin as [->|Hin]; [apply Nat.ltb_lt in E; lia|].
  apply IH; [exact Hin | rewrite length_insert; exact Hi].
Qed.

Lemma trues_insert (a : list bool) (i : nat) :
  (trues (<[i := true]> a) <= S (trues a))%nat.
Proof.
  unfold trues. revert i. induction a as [|b a IH]; intros i; [simpl; lia|].
  destruct i as [|i]; simpl.
  - destruct b; lia.
  - specialize (IH i). lia.
Qed.

Lemma put_trues (idxs : list nat) (a a' : list bool) :
  Np.put idxs true a = Ok a' -> (trues a' <= trues a + List.length idxs)%nat.
Proof.
  revert a. induction idxs as [|i idxs IH]; intros a H.
  - injection H as <-. simpl. lia.
  - cbn [Np.put] in H. destruct (i <? List.length a)%nat; [|discriminate].
    apply IH in H. pose proof (trues_insert a i). simpl. lia.
Qed.

Lemma trues_replicate (n : nat) : trues (replicate n false) = 0%nat.
Proof. unfold trues. induction n; simpl; congruence. Qed.

Lemma get_ok {A} (a : list A) (idxs : list nat) :
  Forall (fun i => (i < List.length a)%nat) idxs ->
  exists r, Np.get a idxs = Ok r /\ List.length r = List.length idxs.
Proof.
  induction 1 as [|i idxs Hi _ (r & E & Hl)]; [exists []; split; reflexivity|].
  cbn [Np.get]. destruct (lookup_lt_is_Some_2 a i Hi) as [x ->].
  rewrite E. exists (x :: r). split; [reflexivity | simpl; congruence].
Qed.

Section Classify.

Import TextDataLoader.

Context {F : Type}.
Variable pyfloat : string -> option F.
Variable uninit : nat -> F.

Lemma linerecs_nw1 (sl : list (list string)) :
  List.map nw1 (linerecs sl) = Np.cumsum (List.map (@List.length string) sl).
Proof.
  destruct (linerecs_ranges sl) as [Hlen Hr].
  apply list_eq. intros i. rewrite list_lookup_fmap.
  destruct (sl !! i) as [x|] eqn:Ei.
  - destruct (Hr i x Ei) as (r & -> & _ & Hnf & _ & Hnw0 & Hnw1 & _).
    unfold Np.cumsum. rewrite (cumsum_from_lookup _ _ _ _ Ei).
    cbn [fmap option_fmap option_map]. f_equal.
    rewrite (take_S_r _ _ _ Ei), concat_app, length_app. simpl.
    rewrite app_nil_r. lia.
  - apply lookup_ge_None in Ei.
    rewrite (proj2 (lookup_ge_None (linerecs sl) i)) by lia.
    symmetry. apply lookup_ge_None.
    unfold Np.cumsum. rewrite cumsum_from_length, length_map. exact Ei.
Qed.

Lemma init_snoc {A} (c : list A) (t : A) : Np.init (c ++ [t]) = c.
Proof.
  unfold Np.init. rewrite length_app. simpl.
  apply take_app_length'. lia.
Qed.

Lemma linerecs_starts (pre : list (list string)) (wl : list string) :
  Np.init (List.map nw1 (linerecs (pre ++ [wl])))
  = Np.cumsum (List.map (@List.length string) pre).
Proof.
  rewrite linerecs_nw1, map_app. unfold Np.cumsum.
  rewrite cumsum_from_app. apply init_snoc.
Qed.

(** When the last line has no word and is not the only line, the end of
    the line before it is the number of words, an index that the array of
    word flags does not have. *)
Lemma wordrecs_raises (pre : list (list string)) :
  pre <> [] ->
  wordrecs pyfloat uninit (linerecs (pre ++ [[]])) (List.concat (pre ++ [[]]))
  = Raise IndexError.
Proof.
  intros Hpre. unfold wordrecs. rewrite linerecs_starts.
  rewrite (put_raise _ true _ (List.length (List.concat pre))); [reflexivity | |].
  - unfold Np.cumsum. rewrite <- sum_list_lengths.
    apply (cumsum_from_last _ 0). destruct pre; [congruence | discriminate].
  - rewrite length_replicate, concat_app, length_app. simpl. lia.
Qed.

Lemma wordrecs_returns (pre : list (list string)) (wl : list string) :
  pre = [] \/ wl <> [] ->
  exists lw,
    wordrecs pyfloat uninit (linerecs (pre ++ [wl])) (List.concat (pre ++ [wl]))
    = Ok lw /\
    List.length lw = List.length (List.concat (pre ++ [wl])) /\
    Forall (fun w => (line w < List.length (linerecs (pre ++ [wl])))%nat) lw.
Proof.
  intros Hcase. unfold wordrecs. rewrite linerecs_starts.
  set (words := List.concat (pre ++ [wl])).
  set (lr := linerecs (pre ++ [wl])).
  assert (Hlr : List.length lr = S (List.length pre)).
  { unfold lr. rewrite (proj1 (linerecs_ranges _)), length_app. simpl. lia. }
  assert (Hwords : List.length words
                   = (List.length (List.concat pre) + List.length wl)%nat).
  { unfold words. rewrite concat_app, length_app. simpl.
    rewrite app_nil_r. reflexivity. }
  destruct (put_ok (Np.cumsum (List.map (@List.length string) pre)) true
              (replicate (List.length words) false)) as (n1 & En1 & Hn1).
  { apply Forall_forall. intros x Hx. apply list_elem_of_In in Hx.
    rewrite length_replicate, Hwords. destruct Hcase as [->|Hwl].
    - destruct Hx.
    - apply cumsum_from_le in Hx. rewrite sum_list_lengths in Hx.
      destruct wl; [congruence | simpl; lia]. }
  rewrite En1. cbn [mbind result_bind].
  rewrite length_replicate in Hn1.
  pose proof (put_trues _ _ _ En1) as Htrues.
  rewrite trues_replicate in Htrues.
  unfold Np.cumsum in Htrues at 1. rewrite cumsum_from_length, length_map in Htrues.
  set (lines := Np.cumsum (List.map (fun b : bool => if b then 1%nat else 0%nat) n1)).
  assert (Hlines : Forall (fun i => (i < List.length lr)%nat) lines).
  { apply Forall_forall. intros x Hx. apply list_elem_of_In in Hx.
    apply cumsum_from_le in Hx. fold (trues n1) in Hx. lia. }
  destruct (get_ok (List.map nw0 lr) lines) as (starts & Es & Hs).
  { rewrite length_map. exact Hlines. }
  rewrite Es. cbn [mbind result_bind].
  assert (Hll : List.length lines = List.length words).
  { unfold lines, Np.cumsum. rewrite cumsum_from_length, length_map. exact Hn1. }
  eexists. split; [reflexivity|]. split.
  - rewrite length_imap, !length_zip. lia.
  - apply Forall_forall. intros w Hw.
    apply list_elem_of_lookup in Hw. destruct Hw as (i & Hi).
    rewrite list_lookup_imap in Hi.
    destruct (zip words (zip lines starts) !! i) as [[w0 [l s]]|] eqn:Ez;
      [|discriminate].
    injection Hi as <-. cbn [line].
    apply lookup_zip_with_Some in Ez. destruct Ez as (? & ? & Ep & _ & Ez).
    injection Ep as <- <-.
    apply lookup_zip_with_Some in Ez. destruct Ez as (? & ? & Ep & El & _).
    injection Ep as <- <-.
    rewrite Forall_forall in Hlines. apply Hlines.
    apply list_elem_of_lookup. exists i. exact El.
Qed.

Lemma mark_bad_ok (bl : list nat) (lr : list linerec) :
  Forall (fun i => (i < List.length lr)%nat) bl ->
  exists lr', mark_bad bl lr = Ok lr' /\ List.length lr' = List.length lr.
Proof.
  intros H. unfold mark_bad.
  destruct (put_ok bl false (List.map ok lr)) as (oks & E & Hl).
  { rewrite length_map. exact H. }
  rewrite E. cbn [mbind result_bind]. eexists. split; [reflexivity|].
  apply length_zip_with_l_eq. rewrite Hl, length_map. reflexivity.
Qed.

Lemma prune_ok (u : option (list Z)) (lw : list (wordrec F)) (lr : list linerec) :
  Forall (fun w => (line w < List.length lr)%nat) lw ->
  exists lr', prune u lw lr = Ok lr' /\ List.length lr' = List.length lr.
Proof.
  intros H.
  assert (Hbad : forall (P : wordrec F -> bool) (lr0 : list linerec),
            List.length lr0 = List.length lr ->
            Forall (fun i => (i < List.length lr0)%nat)
              (List.map line (List.filter P lw))).
  { intros P lr0 Hl. apply Forall_forall. intros i Hi.
    apply list_elem_of_In, in_map_iff in Hi. destruct Hi as (w & <- & Hw).
    apply filter_In in Hw. destruct Hw as [Hw _].
    rewrite Forall_forall in H. rewrite Hl. apply H, list_elem_of_In, Hw. }
  destruct u as [cols|]; cbn [prune].
  - assert (G : forall lr0, List.length lr0 = List.length lr ->
              exists lr', prune_cols lw cols lr0 = Ok lr' /\
                          List.length lr' = List.length lr).
    { induction cols as [|c cols IH]; intros lr0 Hl.
      - exists lr0. split; [reflexivity | exact Hl].
      - cbn [prune_cols].
        destruct (mark_bad_ok _ lr0
                    (Hbad (fun w => (col w =? c) && negb (wok w)) lr0 Hl))
          as (lr1 & E & Hl1).
        rewrite E. cbn [mbind result_bind]. apply IH. congruence. }
    apply G. reflexivity.
  - apply mark_bad_ok. apply Hbad. reflexivity.
Qed.

(** [readfp] raises an [IndexError] on every file of two or more lines
    whose last line has no word, whatever the loader's settings. *)
Theorem blank_last_line_raises (self : loader) (file : string)
    (pre : list string) (l : string) :
  Py.readlines file = (pre ++ [l])%list -> pre <> [] -> Py.split_ws l = [] ->
  readfp pyfloat uninit self file = Raise IndexError.
Proof.
  intros Hl Hpre Hw. unfold readfp, _findDataBlocks, classify.
  rewrite words_of_lines, Hl, map_app. cbn [List.map]. rewrite Hw.
  rewrite wordrecs_raises; [reflexivity|].
  destruct pre; [congruence | discriminate].
Qed.

(** On every other file the classification returns, with a record per
    line and a record per word. *)
Theorem classify_returns (self : loader) (file : string) :
  (List.length (Py.readlines file) <= 1)%nat \/
  (exists pre l, Py.readlines file = (pre ++ [l])%list /\ Py.split_ws l <> []) ->
  exists lr lw,
    classify pyfloat uninit self (Py.readlines file) = Ok (lr, lw) /\
    List.length lr = List.length (Py.readlines file) /\
    List.length lw = List.length (Py.split_ws file).
Proof.
  intros Hcase. unfold classify. rewrite words_of_lines.
  assert (Hfile : Py.split_ws file
                  = List.concat (List.map Py.split_ws (Py.readlines file))).
  { rewrite <- words_of_lines, join_readlines. reflexivity. }
  rewrite Hfile. clear Hfile.
  destruct (Py.readlines file) as [|l0 lines] eqn:El.
  - destruct (prune_ok (usecols self) [] []) as (lr' & E & Hlen); [constructor|].
    exists lr', (@nil (wordrec F)).
    assert (Ew : wordrecs pyfloat uninit (linerecs (List.map Py.split_ws []))
                   (List.concat (List.map Py.split_ws [])) = Ok []) by reflexivity.
    rewrite Ew. cbn [mbind result_bind].
    change (linerecs (List.map Py.split_ws [])) with (@nil linerec).
    rewrite E. split; [reflexivity|]. split; [exact Hlen | reflexivity].
  - assert (Hsplit : exists pre l, (l0 :: lines) = (pre ++ [l])%list /\
                       (pre = [] \/ Py.split_ws l <> [])).
    { destruct Hcase as [Hlen|(pre & l & Hpl & Hw)].
      - destruct lines; [|simpl in Hlen; lia]. exists [], l0. split; [reflexivity | left; reflexivity].
      - exists pre, l. split; [exact Hpl | right; exact Hw]. }
    destruct Hsplit as (pre & l & -> & Hc).
    rewrite map_app. cbn [List.map].
    destruct (wordrecs_returns (List.map Py.split_ws pre) (Py.split_ws l))
      as (lw & Ew & Hlw & Hline).
    { destruct Hc as [->|Hw]; [left; reflexivity | right; exact Hw]. }
    rewrite Ew. cbn [mbind result_bind].
    destruct (prune_ok (usecols self) lw _ Hline) as (lr' & E & Hlen).
    rewrite E. exists lr', lw. split; [reflexivity|]. split; [|exact Hlw].
    rewrite Hlen, (proj1 (linerecs_ranges _)), !length_app, length_map. reflexivity.
Qed.

End Classify.

Lemma blank_last_line_raises_witness :
  readfp_int {| TextDataLoader.minrows := 10; TextDataLoader.usecols := None |}
    ("1 2" ++ nl ++ "3 4" ++ nl ++ " " ++ nl)%string = Raise IndexError.
Proof.
  apply (blank_last_line_raises IntFloat.float (fun _ => 0) _ _
           ["1 2" ++ nl; "3 4" ++ nl]%string (" " ++ nl)%string);
    [reflexivity | discriminate | reflexivity].
Defined.

Lemma classify_returns_witness :
  exists lr lw,
    TextDataLoader.classify IntFloat.float (fun _ => 0)
      {| TextDataLoader.minrows := 10; TextDataLoader.usecols := None |}
      (Py.readlines ("x" ++ nl ++ nl ++ "1 2" ++ nl)) = Ok (lr, lw) /\
    List.length lr = 3%nat /\ List.length lw = 3%nat.
Proof.
  apply (classify_returns IntFloat.float (fun _ => 0)
           {| TextDataLoader.minrows := 10; TextDataLoader.usecols := None |}
           ("x" ++ nl ++ nl ++ "1 2" ++ nl)%string).
  right. exists ["x" ++ nl; nl]%string, ("1 2" ++ nl)%string.
  split; [reflexivity | discriminate].
Defined.

(** ** TextDataLoader: the boundary scan on lines that are all ok *)

Lemma broadcast2_same {A B C} (f : A -> B -> C) (xs : list A) (ys : list B) :
  List.length xs = List.length ys ->
  Np.broadcast2 f xs ys = Ok (zip_with f xs ys).
Proof.
  intros H. unfold Np.broadcast2.
  replace (List.length xs =? List.length ys)%nat with true
    by (symmetry; apply Nat.eqb_eq; exact H).
  reflexivity.
Qed.

Lemma nonzero_from_app (l1 l2 : list bool) (i : nat) :
  Np.nonzero_from i (l1 ++ l2)
  = (Np.nonzero_from i l1 ++ Np.nonzero_from (i + List.length l1) l2)%list.
Proof.
  revert i. induction l1 as [|b l1 IH]; intros i.
  - simpl. rewrite Nat.add_0_r. reflexivity.
  - simpl. rewrite IH. replace (S i + List.length l1)%nat
      with (i + S (List.length l1))%nat by lia.
    destruct b; reflexivity.
Qed.

Lemma nonzero_changes (rest : list nat) (x p : nat) :
  Np.nonzero_from p
    (zip_with (fun a b : nat => negb (a =? b)%nat) rest
       (take (List.length rest) (x :: rest)))
  = width_changes_from p x rest.
Proof.
  revert x p. induction rest as [|y rest IH]; intros x p; [reflexivity|].
  cbn [List.length take zip_with Np.nonzero_from width_changes_from].
  rewrite IH. destruct (y =? x)%nat; reflexivity.
Qed.

Lemma length_width_changes (rest : list nat) (x p : nat) :
  (List.length (width_changes_from p x rest) <= List.length rest)%nat.
Proof.
  revert x p. induction rest as [|y rest IH]; intros x p; [reflexivity|].
  cbn [width_changes_from]. rewrite length_app. specialize (IH y (S p)).
  destruct (y =? x)%nat; simpl; lia.
Qed.

(** Between a position below [p], the width changes from [p] on and the
    end, every step is at least 1. *)
Lemma width_changes_steps (rest : list nat) (x p lo : nat) :
  (lo < p)%nat ->
  Forall (fun c => 1 <= c)
    (zip_with Z.sub
       (List.map Z.of_nat
          (width_changes_from p x rest ++ [(p + List.length rest)%nat])%list)
       (List.map Z.of_nat (lo :: width_changes_from p x rest))).
Proof.
  revert x p lo. induction rest as [|y rest IH]; intros x p lo Hlo.
  - simpl. repeat constructor. lia.
  - cbn [width_changes_from List.length].
    replace (p + S (List.length rest))%nat with (S p + List.length rest)%nat by lia.
    destruct (y =? x)%nat.
    + apply IH. lia.
    + cbn [app List.map zip_with]. constructor; [lia|]. apply IH. lia.
Qed.

Lemma mask_lookup {A} (a : list A) (m : list bool) (x : A) :
  In x (List.map fst (List.filter snd (zip a m))) <->
  exists k, a !! k = Some x /\ m !! k = Some true.
Proof.
  revert m. induction a as [|y a IH]; intros m.
  - simpl. split; [intros [] | intros (k & H & _); destruct k; discriminate].
  - destruct m as [|b m].
    + simpl. split; [intros [] | intros (k & _ & H); destruct k; discriminate].
    + cbn [zip zip_with List.filter snd]. destruct b; cbn [List.map fst In]; rewrite IH.
      * split.
        -- intros [<-|(k & H1 & H2)]; [exists 0%nat | exists (S k)]; split; assumption || reflexivity.
        -- intros (k & H1 & H2). destruct k as [|k].
           ++ left. injection H1 as <-. reflexivity.
           ++ right. exists k. split; assumption.
      * split.
        -- intros (k & H1 & H2). exists (S k). split; assumption.
        -- intros (k & H1 & H2). destruct k as [|k]; [discriminate|].
           exists k. split; assumption.
Qed.

Section AllOk.

Import TextDataLoader.

Lemma oks_replicate (lr1 : list linerec) :
  Forall (fun r => ok r = true) lr1 ->
  List.map ok lr1 = replicate (List.length lr1) true.
Proof. induction 1 as [|r lr1 Hr _ IH]; simpl; congruence. Qed.

(** On surviving lines that are all [ok], the starts are position 0 and
    the width changes, and the ends are the width changes and the
    number of lines. *)
Lemma begs_ends_all_ok (lr1 : list linerec) :
  lr1 <> [] -> Forall (fun r => ok r = true) lr1 ->
  begs_ends lr1
  = Ok (0%nat :: width_changes lr1,
        (width_changes lr1 ++ [List.length lr1])%list).
Proof.
  intros Hne Hok. unfold begs_ends.
  rewrite (oks_replicate lr1 Hok).
  destruct lr1 as [|r0 rs]; [congruence|]. clear Hne Hok.
  set (k := List.length rs).
  change (List.length (r0 :: rs)) with (S k).
  assert (Hinit : forall (A : Type) (x : A), Np.init (replicate (S k) x) = replicate k x).
  { intros A x. unfold Np.init. rewrite length_replicate, take_replicate.
    f_equal. lia. }
  assert (Hlast : Np.last1 (replicate (S k) true) = [true]).
  { unfold Np.last1. rewrite length_replicate, drop_replicate.
    replace (S k - (S k - 1))%nat with 1%nat by lia. reflexivity. }
  rewrite Hinit, Hlast, !drop_replicate, take_replicate.
  replace (S k - 1)%nat with k by lia.
  replace (1 `min` S k)%nat with 1%nat by lia.
  change (replicate 1 true) with [true].
  unfold Np.band.
  rewrite broadcast2_same by (rewrite length_map, !length_replicate; reflexivity).
  cbn [mbind result_bind].
  rewrite broadcast2_same by (rewrite length_map, !length_replicate; reflexivity).
  cbn [mbind result_bind].
  change (negb <$> replicate k true) with (List.map negb (replicate k true)).
  assert (Hneg : List.map negb (replicate k true) = replicate k false)
    by apply fmap_replicate.
  rewrite Hneg, !zip_with_replicate. cbn [andb].
  cbn [List.map]. set (x := nf r0). set (rest := List.map nf rs).
  assert (Hrest : List.length rest = k) by (unfold rest; apply length_map).
  unfold Np.neq.
  change (drop 1 (x :: rest)) with rest.
  assert (Hinit1 : Np.init (x :: rest) = take k (x :: rest)).
  { unfold Np.init. cbn [List.length]. rewrite Hrest. f_equal. lia. }
  rewrite Hinit1.
  rewrite broadcast2_same by (rewrite length_take; simpl; lia).
  cbn [mbind result_bind].
  set (change := zip_with (fun a b : nat => negb (a =? b)%nat) rest (take k (x :: rest))).
  assert (Hchange : List.length change = k).
  { unfold change. rewrite length_zip_with, length_take. simpl. lia. }
  assert (Hinit2 : Np.init (change ++ [false]) = change) by apply init_snoc.
  change (drop 1 ([true] ++ change ++ [false])%list) with (change ++ [false])%list.
  rewrite Hinit2.
  unfold Np.bor.
  rewrite broadcast2_same
    by (simpl; rewrite !length_app, length_replicate; simpl; lia).
  cbn [mbind result_bind].
  rewrite broadcast2_same
    by (simpl; rewrite !length_app, length_replicate; simpl; lia).
  cbn [mbind result_bind].
  assert (Hor0 : zip_with orb (replicate k false) change = change).
  { rewrite zip_with_replicate_l by lia. exact (list_fmap_id change). }
  unfold Np.nonzero.
  change ([true] ++ replicate k false ++ [false])%list
    with (true :: (replicate k false ++ [false]))%list.
  change ([true] ++ change ++ [false])%list with (true :: (change ++ [false]))%list.
  change ([false] ++ replicate k false ++ [true])%list
    with (false :: (replicate k false ++ [true]))%list.
  change ([false] ++ change ++ [true])%list with (false :: (change ++ [true]))%list.
  cbn [zip_with].
  rewrite !zip_with_app by (rewrite length_replicate, Hchange; reflexivity).
  rewrite Hor0. cbn [zip_with orb Np.nonzero_from].
  rewrite !nonzero_from_app, Hchange. cbn [Np.nonzero_from].
  rewrite app_nil_r.
  unfold width_changes. cbn [List.map]. fold x rest.
  unfold change. rewrite <- Hrest, nonzero_changes.
  replace (1 + List.length rest)%nat with (S (List.length rest)) by lia.
  reflexivity.
Qed.

End AllOk.

Section AllOkBlocks.

Import TextDataLoader.

(** When every surviving line is [ok], the boundary scan returns: its
    starts are position 0 and the width changes, its ends are the width
    changes and the number of surviving lines, so that the candidate blocks
    are the runs of equal width, one after the other; every row count is at
    least 1, and the accepted blocks are the candidates of at least
    [minrows] rows, each as its first and last position. *)
Theorem all_ok_boundaries (self : loader) (lr : list linerec) :
  let lr1 := survivors (mincols (usecols self)) lr in
  lr1 <> [] -> Forall (fun r => ok r = true) lr1 ->
  exists b,
    scan_boundaries self lr = Ok b /\
    TextDataLoader.lr1 b = lr1 /\
    beg b = 0%nat :: width_changes lr1 /\
    end_ b = (width_changes lr1 ++ [List.length lr1])%list /\
    Forall (fun c => 1 <= c) (rowcounts b) /\
    (forall s e, In (s, e) (begend b) <->
       exists k bs be,
         beg b !! k = Some bs /\ end_ b !! k = Some be /\
         s = Z.of_nat bs /\ e = Z.of_nat be - 1 /\
         minrows self <= Z.of_nat be - Z.of_nat bs).
Proof.
  intros lr1 Hne Hok. unfold scan_boundaries. fold lr1.
  rewrite (begs_ends_all_ok lr1 Hne Hok). cbn [mbind result_bind].
  set (cs := width_changes lr1).
  set (zbeg := List.map Z.of_nat (0%nat :: cs)).
  set (zend := List.map Z.of_nat (cs ++ [List.length lr1])%list).
  assert (Hlen : List.length zend = List.length zbeg).
  { unfold zend, zbeg. rewrite !length_map, length_app. simpl. lia. }
  unfold Np.sub. rewrite (broadcast2_same Z.sub zend zbeg Hlen).
  cbn [mbind result_bind].
  set (rc := zip_with Z.sub zend zbeg).
  assert (Hpos : Forall (fun c => 1 <= c) rc).
  { unfold rc, zend, zbeg, cs, width_changes.
    destruct lr1 as [|r0 rs]; [congruence|]. cbn [List.map List.length].
    replace (S (List.length rs)) with (1 + List.length (List.map nf rs))%nat
      by (rewrite length_map; reflexivity).
    apply width_changes_steps. lia. }
  assert (Hneg : existsb (fun c => c <? 0) rc = false).
  { clear -Hpos. induction Hpos as [|c rc Hc _ IH]; [reflexivity|].
    simpl. rewrite IH. replace (c <? 0) with false by (symmetry; apply Z.ltb_ge; lia).
    reflexivity. }
  rewrite Hneg. unfold Np.stack2.
  replace (List.length zbeg =? List.length (List.map (fun e : Z => (e - 1)%Z) zend))%nat
    with true by (symmetry; apply Nat.eqb_eq; rewrite length_map; lia).
  cbn [mbind result_bind]. unfold Np.mask.
  replace (List.length (zip zbeg (List.map (fun e : Z => (e - 1)%Z) zend))
           =? List.length (List.map (fun c : Z => (minrows self <=? c)%Z) rc))%nat
    with true
    by (symmetry; apply Nat.eqb_eq; unfold rc;
        rewrite length_zip, !length_map, length_zip_with; lia).
  cbn [mbind result_bind].
  eexists. split; [reflexivity|]. cbn [TextDataLoader.lr1 beg end_ rowcounts begend].
  split; [reflexivity|]. split; [reflexivity|]. split; [reflexivity|].
  split; [exact Hpos|].
  intros s e. rewrite mask_lookup. split.
  - intros (k & Hp & Hg).
    apply lookup_zip_with_Some in Hp. destruct Hp as (x & y & Exy & Hx & Hy).
    injection Exy as -> ->.
    unfold zbeg in Hx. rewrite list_lookup_fmap in Hx.
    apply fmap_Some in Hx. destruct Hx as (bs & Hbs & ->).
    rewrite list_lookup_fmap in Hy. apply fmap_Some in Hy.
    destruct Hy as (ze & Hze & ->).
    unfold zend in Hze. rewrite list_lookup_fmap in Hze.
    apply fmap_Some in Hze. destruct Hze as (be & Hbe & ->).
    rewrite list_lookup_fmap in Hg. apply fmap_Some in Hg.
    destruct Hg as (c & Hc & Hge).
    unfold rc in Hc. apply lookup_zip_with_Some in Hc.
    destruct Hc as (ze & zb & -> & Hze & Hzb).
    unfold zend in Hze. rewrite list_lookup_fmap, Hbe in Hze. injection Hze as <-.
    unfold zbeg in Hzb. rewrite list_lookup_fmap, Hbs in Hzb. injection Hzb as <-.
    exists k, bs, be. repeat split; try assumption.
    symmetry in Hge. apply Z.leb_le in Hge. exact Hge.
  - intros (k & bs & be & Hbs & Hbe & -> & -> & Hge).
    exists k. split.
    + apply lookup_zip_with_Some. exists (Z.of_nat bs), (Z.of_nat be - 1).
      split; [reflexivity|]. split.
      * unfold zbeg. rewrite list_lookup_fmap, Hbs. reflexivity.
      * unfold zend. rewrite !list_lookup_fmap, Hbe. reflexivity.
    + rewrite list_lookup_fmap. unfold rc.
      assert (Hc : zip_with Z.sub zend zbeg !! k = Some (Z.of_nat be - Z.of_nat bs)).
      { apply lookup_zip_with_Some. exists (Z.of_nat be), (Z.of_nat bs).
        split; [reflexivity|]. split.
        - unfold zend. rewrite list_lookup_fmap, Hbe. reflexivity.
        - unfold zbeg. rewrite list_lookup_fmap, Hbs. reflexivity. }
      rewrite Hc. cbn [fmap option_fmap option_map]. f_equal.
      apply Z.leb_le. exact Hge.
Qed.

(** When no line survives the column threshold, the scan still counts
    one candidate block of one row: with [minrows <= 1] the loop over the
    blocks indexes the empty array of survivors and [_findDataBlocks]
    raises an [IndexError]; with a larger [minrows] no block is accepted
    and all the lines go to one header, if there is any line. *)
Theorem no_survivor {F : Type} (pyfloat : string -> option F) (uninit : nat -> F)
    (self : loader) (lines : list string)
    (lr : list linerec) (lw : list (wordrec F)) :
  classify pyfloat uninit self lines = Ok (lr, lw) ->
  survivors (mincols (usecols self)) lr = [] ->
  scan_boundaries self lr
  = Ok {| lr1 := []; beg := [0%nat]; end_ := [1%nat]; rowcounts := [1];
          begend := if minrows self <=? 1 then [(0, 0)] else [] |} /\
  _findDataBlocks pyfloat uninit self lines
  = if minrows self <=? 1 then Raise IndexError
    else Ok (finish lines 0).
Proof.
  intros Hc Hs.
  assert (Hb : scan_boundaries self lr
    = Ok {| lr1 := []; beg := [0%nat]; end_ := [1%nat]; rowcounts := [1];
            begend := if minrows self <=? 1 then [(0, 0)] else [] |}).
  { unfold scan_boundaries. rewrite Hs.
    change (begs_ends []) with (Ok ([0%nat], [1%nat])).
    cbn [mbind result_bind List.map].
    change (Z.of_nat 1) with 1. change (Z.of_nat 0) with 0.
    change (Np.sub [1] [0]) with (Ok [1 - 0]).
    change (1 - 0) with 1. cbn [mbind result_bind existsb List.map].
    change (1 <? 0) with false. cbn [orb].
    change (Np.stack2 [0] [1 - 1]) with (Ok [(0, 0)]).
    cbn [mbind result_bind]. unfold Np.mask. cbn [List.length Nat.eqb zip zip_with].
    cbn [mbind result_bind List.filter snd].
    destruct (minrows self <=? 1); reflexivity. }
  split; [exact Hb|].
  unfold _findDataBlocks. rewrite Hc. cbn [mbind result_bind]. rewrite Hb.
  cbn [mbind result_bind lr1 begend].
  destruct (minrows self <=? 1); reflexivity.
Qed.

(** When [readfp] returns and no block is accepted, the result is the
    whole text of the file as one header with an empty dataset, and nothing
    for the empty file. *)
Theorem no_block_whole_file {F : Type} (pyfloat : string -> option F)
    (uninit : nat -> F) (self : loader) (file : string)
    (entries : list (string * list (list F))) (b : boundaries) :
  readfp pyfloat uninit self file = Ok entries ->
  index_file pyfloat uninit self file = Ok b ->
  begend b = [] ->
  entries = match file with
            | EmptyString => []
            | _ => [(file, [])]
            end.
Proof.
  unfold readfp, _findDataBlocks, index_file. intros Hr Hi Hb.
  destruct (classify pyfloat uninit self (Py.readlines file)) as [[lr lw]|];
    [|discriminate].
  cbn [mbind result_bind] in Hr, Hi. rewrite Hi in Hr.
  cbn [mbind result_bind] in Hr. rewrite Hb in Hr.
  cbn [materialize mbind result_bind] in Hr. injection Hr as <-.
  cbn [app]. unfold finish.
  destruct file as [|c file]; [reflexivity|].
  pose proof (readlines_nonempty (String c file) ltac:(discriminate)) as Hne.
  destruct (Py.readlines (String c file)) as [|l ls] eqn:El; [congruence|].
  cbn [List.length Nat.ltb Nat.leb]. rewrite <- El.
  change (drop 0 (Py.readlines (String c file))) with (Py.readlines (String c file)).
  rewrite join_readlines. reflexivity.
Qed.

End AllOkBlocks.

Lemma all_ok_boundaries_witness :
  exists b,
    TextDataLoader.scan_boundaries
      {| TextDataLoader.minrows := 2; TextDataLoader.usecols := None |}
      [ {| TextDataLoader.idx := 0; TextDataLoader.nw0 := 0; TextDataLoader.nw1 := 2;
           TextDataLoader.nf := 2; TextDataLoader.ok := true |};
        {| TextDataLoader.idx := 1; TextDataLoader.nw0 := 2; TextDataLoader.nw1 := 4;
           TextDataLoader.nf := 2; TextDataLoader.ok := true |};
        {| TextDataLoader.idx := 2; TextDataLoader.nw0 := 4; TextDataLoader.nw1 := 7;
           TextDataLoader.nf := 3; TextDataLoader.ok := true |} ] = Ok b /\
    TextDataLoader.beg b = [0; 2]%nat /\ TextDataLoader.end_ b = [2; 3]%nat.
Proof.
  destruct (all_ok_boundaries
      {| TextDataLoader.minrows := 2; TextDataLoader.usecols := None |}
      [ {| TextDataLoader.idx := 0; TextDataLoader.nw0 := 0; TextDataLoader.nw1 := 2;
           TextDataLoader.nf := 2; TextDataLoader.ok := true |};
        {| TextDataLoader.idx := 1; TextDataLoader.nw0 := 2; TextDataLoader.nw1 := 4;
           TextDataLoader.nf := 2; TextDataLoader.ok := true |};
        {| TextDataLoader.idx := 2; TextDataLoader.nw0 := 4; TextDataLoader.nw1 := 7;
           TextDataLoader.nf := 3; TextDataLoader.ok := true |} ])
    as (b & Hb & _ & Hbeg & Hend & _).
  - discriminate.
  - repeat constructor.
  - exists b. split; [exact Hb|]. split; [exact Hbeg | exact Hend].
Defined.

Lemma no_survivor_witness :
  TextDataLoader._findDataBlocks IntFloat.float (fun _ => 0)
    {| TextDataLoader.minrows := 1; TextDataLoader.usecols := Some [2] |}
    ["1 2" ++ nl]%string = Raise IndexError.
Proof.
  apply (proj2 (no_survivor IntFloat.float (fun _ => 0)
           {| TextDataLoader.minrows := 1; TextDataLoader.usecols := Some [2] |}
           ["1 2" ++ nl]%string _ _ eq_refl eq_refl)).
Defined.

Lemma no_block_whole_file_witness :
  readfp_int {| TextDataLoader.minrows := 10; TextDataLoader.usecols := None |}
    ("hello" ++ nl ++ "1 2" ++ nl)%string
  = Ok [(("hello" ++ nl ++ "1 2" ++ nl)%string, [])].
Proof.
  assert (H : exists entries,
    readfp_int {| TextDataLoader.minrows := 10; TextDataLoader.usecols := None |}
      ("hello" ++ nl ++ "1 2" ++ nl)%string = Ok entries)
    by (eexists; vm_compute; reflexivity).
  destruct H as (entries & H). rewrite H. f_equal.
  exact (no_block_whole_file IntFloat.float (fun _ => 0) _ _ entries _
           H eq_refl eq_refl).
Defined.

(** ** TextDataLoader: a table of floats, from the file to the result *)

Lemma length_concat_uniform {A} (w : nat) (ls : list (list A)) :
  Forall (fun l => List.length l = w) ls ->
  List.length (List.concat ls) = (List.length ls * w)%nat.
Proof.
  induction 1 as [|l ls Hl _ IH]; [reflexivity|].
  simpl. rewrite length_app, IH, Hl. reflexivity.
Qed.

Lemma width_changes_uniform (rest : list nat) (x p : nat) :
  Forall (fun y => y = x) rest -> width_changes_from p x rest = [].
Proof.
  intros H. revert p. induction H as [|y rest -> _ IH]; intros p; [reflexivity|].
  cbn [width_changes_from]. rewrite Nat.eqb_refl. apply IH.
Qed.

Lemma index_nonneg {A} (l : list A) (i : nat) (x : A) :
  l !! i = Some x -> Py.index l (Z.of_nat i) = Ok x.
Proof.
  intros H. unfold Py.index. pose proof (lookup_lt_Some _ _ _ H) as Hlt.
  replace (Z.of_nat i <? 0) with false by (symmetry; apply Z.ltb_ge; lia).
  replace ((0 <=? Z.of_nat i) && (Z.of_nat i <? Z.of_nat (List.length l)))
    with true by (symmetry; apply andb_true_iff; split; lia).
  rewrite Nat2Z.id, H. reflexivity.
Qed.

Section Table.

Import TextDataLoader.

Context {F : Type}.
Variable pyfloat : string -> option F.
Variable uninit : nat -> F.

(** The fields of the word records that [wordrecs] returns. *)
Lemma wordrecs_fields (lr : list linerec) (words : list string)
    (lw : list (wordrec F)) :
  wordrecs pyfloat uninit lr words = Ok lw ->
  forall i w, lw !! i = Some w ->
    widx w = i /\ value w = uninit i /\
    exists w0, words !! i = Some w0 /\
               wok w = match pyfloat w0 with Some _ => true | None => false end.
Proof.
  unfold wordrecs. intros H.
  destruct (Np.put _ _ _) as [n1|]; [|discriminate].
  cbn [mbind result_bind] in H.
  destruct (Np.get _ _) as [starts|]; [|discriminate].
  cbn [mbind result_bind] in H. injection H as <-.
  intros i w Hi. rewrite list_lookup_imap in Hi.
  destruct (zip words _ !! i) as [[w0 [l s]]|] eqn:Ez; [|discriminate].
  injection Hi as <-. cbn [widx value wok].
  apply lookup_zip_with_Some in Ez. destruct Ez as (? & ? & Ep & Hw & _).
  injection Ep as <- _.
  split; [reflexivity|]. split; [reflexivity|]. exists w0. split; [exact Hw | reflexivity].
Qed.

Lemma wordrecs_cells (lr : list linerec) (words : list string)
    (lw : list (wordrec F)) :
  wordrecs pyfloat uninit lr words = Ok lw ->
  List.map value lw = List.map uninit (seq 0 (List.length lw)).
Proof.
  intros H. apply list_eq. intros i. rewrite !list_lookup_fmap.
  destruct (lw !! i) as [w|] eqn:Ei.
  - destruct (wordrecs_fields _ _ _ H i w Ei) as (_ & Hv & _).
    rewrite lookup_seq_lt by (apply (lookup_lt_Some _ _ _ Ei)).
    cbn [fmap option_fmap option_map]. rewrite Hv. reflexivity.
  - apply lookup_ge_None in Ei. rewrite lookup_seq_ge by exact Ei. reflexivity.
Qed.

Lemma set_ok_same (lr : list linerec) :
  zip_with (fun r v => set_ok v r) lr (List.map ok lr) = lr.
Proof.
  induction lr as [|r lr IH]; [reflexivity|].
  simpl. rewrite IH. destruct r; reflexivity.
Qed.

(** When every word converts, pruning changes nothing, with or without a
    selection. *)
Lemma prune_all_float (u : option (list Z)) (lw : list (wordrec F))
    (lr : list linerec) :
  Forall (fun w => wok w = true) lw -> prune u lw lr = Ok lr.
Proof.
  intros H.
  assert (Hf : forall P : wordrec F -> bool,
            List.filter (fun w => P w && negb (wok w)) lw = []).
  { intros P. induction H as [|w lw Hw _ IH]; [reflexivity|].
    simpl. rewrite Hw, andb_false_r. exact IH. }
  assert (Hm : mark_bad [] lr = Ok lr).
  { unfold mark_bad. cbn [Np.put mbind result_bind]. rewrite set_ok_same. reflexivity. }
  destruct u as [cols|]; cbn [prune].
  - induction cols as [|c cols IH]; [reflexivity|].
    cbn [prune_cols]. rewrite (Hf (fun w => col w =? c)).
    cbn [List.map]. rewrite Hm. exact IH.
  - specialize (Hf (fun _ => true)). cbn [andb] in Hf. rewrite Hf.
    exact Hm.
Qed.

Lemma linerecs_nf (sl : list (list string)) :
  List.map nf (linerecs sl) = List.map (@List.length string) sl.
Proof.
  destruct (linerecs_ranges sl) as [Hlen Hr].
  apply list_eq. intros i. rewrite !list_lookup_fmap.
  destruct (sl !! i) as [x|] eqn:Ei.
  - destruct (Hr i x Ei) as (r & -> & _ & Hnf & _). simpl. congruence.
  - apply lookup_ge_None in Ei.
    rewrite (proj2 (lookup_ge_None (linerecs sl) i)) by lia. reflexivity.
Qed.

Lemma linerecs_ok (sl : list (list string)) :
  Forall (fun r => ok r = true) (linerecs sl).
Proof.
  destruct (linerecs_ranges sl) as [Hlen Hr].
  apply Forall_forall. intros r Hin.
  apply list_elem_of_lookup in Hin. destruct Hin as (i & Hi).
  destruct (sl !! i) as [x|] eqn:Ei.
  - destruct (Hr i x Ei) as (r' & Hr' & _ & _ & Hok & _). congruence.
  - apply lookup_ge_None in Ei. apply lookup_lt_Some in Hi. lia.
Qed.

(** The boundaries of lines that are all [ok] and of one width. *)
Lemma scan_boundaries_uniform (self : loader) (lr : list linerec) (w : nat) :
  mincols (usecols self) <= Z.of_nat w -> lr <> [] ->
  Forall (fun r => ok r = true) lr ->
  Forall (fun r => nf r = w) lr ->
  scan_boundaries self lr
  = Ok {| lr1 := lr; beg := [0%nat]; end_ := [List.length lr];
          rowcounts := [Z.of_nat (List.length lr)];
          begend := if minrows self <=? Z.of_nat (List.length lr)
                    then [(0, Z.of_nat (List.length lr) - 1)] else [] |}.
Proof.
  intros Hw Hne Hok Hnf.
  assert (Hs : survivors (mincols (usecols self)) lr = lr).
  { unfold survivors. clear -Hnf Hw.
    induction Hnf as [|r lr Hr _ IH]; [reflexivity|].
    simpl. rewrite IH.
    replace (mincols (usecols self) <=? Z.of_nat (nf r)) with true
      by (symmetry; apply Z.leb_le; lia).
    reflexivity. }
  unfold scan_boundaries. rewrite Hs, (begs_ends_all_ok lr Hne Hok).
  assert (Hc : width_changes lr = []).
  { unfold width_changes. destruct lr as [|r0 rs]; [congruence|].
    cbn [List.map]. apply width_changes_uniform.
    apply Forall_cons in Hnf. destruct Hnf as [H0 Hrs].
    apply Forall_forall. intros y Hy. apply list_elem_of_In, in_map_iff in Hy.
    destruct Hy as (r & <- & Hr). rewrite Forall_forall in Hrs.
    rewrite H0. apply Hrs, list_elem_of_In, Hr. }
  rewrite Hc. cbn [mbind result_bind app List.map].
  change (Z.of_nat 0) with 0.
  change (Np.sub [Z.of_nat (List.length lr)] [0]) with (Ok [Z.of_nat (List.length lr) - 0]).
  rewrite Z.sub_0_r. cbn [mbind result_bind existsb].
  replace (Z.of_nat (List.length lr) <? 0) with false by (symmetry; apply Z.ltb_ge; lia).
  cbn [orb List.map].
  change (Np.stack2 [0] [Z.of_nat (List.length lr) - 1])
    with (Ok [(0, Z.of_nat (List.length lr) - 1)]).
  cbn [mbind result_bind]. unfold Np.mask.
  cbn [List.length Nat.eqb zip zip_with mbind result_bind List.filter snd].
  destruct (minrows self <=? Z.of_nat (List.length lr)); reflexivity.
Qed.

End Table.

Section TableResult.

Import TextDataLoader.

Context {F : Type}.
Variable pyfloat : string -> option F.
Variable uninit : nat -> F.

(** The records of a file whose every line has [w >= 1] words, all of
    them floats. *)
Lemma table_classified (self : loader) (file : string) (w : nat) :
  Py.readlines file <> [] ->
  (1 <= w)%nat ->
  Forall (fun l => List.length (Py.split_ws l) = w /\
                   Forall (fun x => is_Some (pyfloat x)) (Py.split_ws l))
         (Py.readlines file) ->
  let n := List.length (Py.readlines file) in
  exists lr lw r0 r1,
    classify pyfloat uninit self (Py.readlines file) = Ok (lr, lw) /\
    List.length lr = n /\ (1 <= n)%nat /\
    Forall (fun r => ok r = true) lr /\
    Forall (fun r => nf r = w) lr /\
    List.map value lw = List.map uninit (seq 0 (n * w)) /\
    lr !! 0%nat = Some r0 /\ idx r0 = 0%nat /\ nw0 r0 = 0%nat /\ nf r0 = w /\
    lr !! (n - 1)%nat = Some r1 /\ idx r1 = (n - 1)%nat /\ nw1 r1 = (n * w)%nat.
Proof.
  intros Hne Hw Hall n. unfold classify.
  rewrite words_of_lines.
  set (lines := Py.readlines file) in *.
  set (sl := List.map Py.split_ws lines).
  assert (Hsl : Forall (fun x => List.length x = w) sl).
  { unfold sl. apply Forall_forall. intros x Hx.
    apply list_elem_of_In, in_map_iff in Hx. destruct Hx as (l & <- & Hl).
    rewrite Forall_forall in Hall. apply (Hall l), list_elem_of_In, Hl. }
  assert (Hlsl : List.length sl = n) by (unfold sl; apply length_map).
  assert (Hnw : List.length (List.concat sl) = (n * w)%nat).
  { rewrite (length_concat_uniform w sl Hsl), Hlsl. reflexivity. }
  assert (Hfl : Forall (fun x => is_Some (pyfloat x)) (List.concat sl)).
  { apply Forall_forall. intros x Hx. apply list_elem_of_In, in_concat in Hx.
    destruct Hx as (ws & Hws & Hx). unfold sl in Hws. apply in_map_iff in Hws.
    destruct Hws as (l & <- & Hl). rewrite Forall_forall in Hall.
    destruct (Hall l (proj2 (list_elem_of_In _ _) Hl)) as [_ Hp].
    rewrite Forall_forall in Hp. apply Hp, list_elem_of_In, Hx. }
  destruct (exists_last Hne) as (pre & l & Hl).
  assert (Hsplit : sl = (List.map Py.split_ws pre ++ [Py.split_ws l])%list).
  { unfold sl. rewrite Hl, map_app. reflexivity. }
  assert (Hlast : Py.split_ws l <> []).
  { rewrite Forall_forall in Hall.
    destruct (Hall l) as [Hlen _].
    - apply list_elem_of_In. rewrite Hl. apply in_or_app. right. left. reflexivity.
    - intros E. rewrite E in Hlen. simpl in Hlen. lia. }
  destruct (wordrecs_returns pyfloat uninit (List.map Py.split_ws pre) (Py.split_ws l))
    as (lw & Ew & Hlw & _); [right; exact Hlast|].
  rewrite <- Hsplit in Ew, Hlw. rewrite Ew. cbn [mbind result_bind].
  assert (Hwok : Forall (fun x => wok x = true) lw).
  { apply Forall_forall. intros x Hx. apply list_elem_of_lookup in Hx.
    destruct Hx as (i & Hi).
    destruct (wordrecs_fields _ _ _ _ _ Ew i x Hi) as (_ & _ & w0 & Hw0 & ->).
    rewrite Forall_forall in Hfl.
    destruct (Hfl w0) as [v ->]; [|reflexivity].
    apply list_elem_of_lookup. exists i. exact Hw0. }
  rewrite (prune_all_float (usecols self) lw (linerecs sl) Hwok).
  cbn [mbind result_bind].
  set (lr := linerecs sl).
  destruct (linerecs_ranges sl) as [Hlr Hr]. fold lr in Hlr, Hr.
  assert (Hlrn : List.length lr = n) by congruence.
  assert (Hnpos : (1 <= n)%nat).
  { unfold n. destruct lines; [congruence | simpl; lia]. }
  assert (Hnf : Forall (fun r => nf r = w) lr).
  { apply Forall_forall. intros r Hin. apply list_elem_of_In in Hin.
    assert (Hin' : In (nf r) (List.map nf lr)) by (apply in_map; exact Hin).
    unfold lr in Hin'. rewrite linerecs_nf in Hin'. apply in_map_iff in Hin'.
    destruct Hin' as (x & <- & Hx). rewrite Forall_forall in Hsl.
    apply Hsl, list_elem_of_In, Hx. }
  destruct (lookup_lt_is_Some_2 sl 0) as [s0 Hs0]; [lia|].
  destruct (lookup_lt_is_Some_2 sl (n - 1)) as [s1 Hs1]; [lia|].
  destruct (Hr 0%nat s0 Hs0) as (r0 & Hr0 & Hidx0 & Hnf0 & _ & Hnw0 & _).
  destruct (Hr (n - 1)%nat s1 Hs1) as (r1 & Hr1 & Hidx1 & Hnf1 & _ & Hnw01 & Hnw1 & _).
  assert (Hw0 : nf r0 = w).
  { rewrite Hnf0. rewrite Forall_forall in Hsl. apply Hsl.
    apply list_elem_of_lookup. exists 0%nat. exact Hs0. }
  assert (Hw1 : List.length s1 = w).
  { rewrite Forall_forall in Hsl. apply Hsl.
    apply list_elem_of_lookup. exists (n - 1)%nat. exact Hs1. }
  assert (Hend : nw1 r1 = (n * w)%nat).
  { rewrite Hnw1, Hnw01, Hnf1, Hw1.
    rewrite (length_concat_uniform w (take (n - 1) sl)).
    - rewrite length_take. nia.
    - apply Forall_take. exact Hsl. }
  exists lr, lw, r0, r1. split; [reflexivity|].
  split; [exact Hlrn|]. split; [exact Hnpos|].
  split; [apply linerecs_ok|]. split; [exact Hnf|].
  split; [rewrite (wordrecs_cells _ _ _ _ _ Ew), Hlw, Hnw; reflexivity|].
  split; [exact Hr0|]. split; [exact Hidx0|].
  split; [rewrite Hnw0; reflexivity|]. split; [exact Hw0|].
  split; [exact Hr1|]. split; [exact Hidx1 | exact Hend].
Qed.

(** A file whose every line has the same number [w >= 1] of words, all
    of them floats, read without a selection. With [minrows] at most the
    number [n] of lines, [readfp] returns one entry: an empty header and a
    dataset of [n] rows of [w] cells, which are the first [n * w] cells of
    the unwritten [value] field in order. With a larger [minrows] it
    returns the whole text as one header with an empty dataset. *)
Theorem numeric_table (self : loader) (file : string) (w : nat) :
  usecols self = None ->
  Py.readlines file <> [] ->
  (1 <= w)%nat ->
  Forall (fun l => List.length (Py.split_ws l) = w /\
                   Forall (fun x => is_Some (pyfloat x)) (Py.split_ws l))
         (Py.readlines file) ->
  let n := List.length (Py.readlines file) in
  readfp pyfloat uninit self file
  = Ok (if minrows self <=? Z.of_nat n
        then [("", Np.chunks (n * w) w (List.map uninit (seq 0 (n * w))))]
        else [(file, [])]).
Proof.
  intros Hu Hne Hw Hall n.
  destruct (table_classified self file w Hne Hw Hall)
    as (lr & lw & r0 & r1 & Hc & Hlrn & Hnpos & Hok & Hnf & Hvals
        & Hr0 & Hidx0 & Hbeg & Hw0 & Hr1 & Hidx1 & Hend).
  fold n in Hlrn, Hnpos, Hvals, Hr1, Hidx1, Hend.
  unfold readfp, _findDataBlocks. rewrite Hc. cbn [mbind result_bind].
  rewrite (scan_boundaries_uniform self lr w); try assumption.
  2: { rewrite Hu. cbn [mincols]. lia. }
  2: { intros E. rewrite E in Hlrn. simpl in Hlrn. lia. }
  cbn [mbind result_bind lr1 begend]. rewrite Hlrn.
  destruct (minrows self <=? Z.of_nat n).
  - cbn [materialize].
    pose proof (index_nonneg lr 0 r0 Hr0) as Hi0.
    change (Z.of_nat 0) with 0 in Hi0. rewrite Hi0.
    replace (Z.of_nat n - 1) with (Z.of_nat (n - 1)) by lia.
    rewrite (index_nonneg lr (n - 1) r1 Hr1).
    cbn [mbind result_bind]. rewrite Hidx0, Hidx1.
    unfold extract. rewrite Hu, Hbeg, Hend, Hw0, Hvals.
    unfold Py.slice, Np.reshape.
    assert (Hcells : take (n * w - 0) (drop 0 (List.map uninit (seq 0 (n * w))))
                     = List.map uninit (seq 0 (n * w))).
    { rewrite Nat.sub_0_r. change (drop 0 (List.map uninit (seq 0 (n * w))))
        with (List.map uninit (seq 0 (n * w))).
      apply take_ge. rewrite length_map, length_seq. lia. }
    rewrite !Hcells.
    destruct w as [|w']; [lia|].
    rewrite length_map, length_seq, Nat.Div0.mod_mul.
    cbn [Nat.eqb mbind result_bind].
    change (Py.join (take (0 - 0) (drop 0 (Py.readlines file)))) with "".
    unfold finish.
    replace (S (n - 1) <? List.length (Py.readlines file))%nat with false
      by (symmetry; apply Nat.ltb_ge; fold n; lia).
    reflexivity.
  - cbn [materialize mbind result_bind app]. unfold finish.
    replace (0 <? List.length (Py.readlines file))%nat with true
      by (symmetry; apply Nat.ltb_lt; fold n; lia).
    change (drop 0 (Py.readlines file)) with (Py.readlines file).
    rewrite join_readlines. reflexivity.
Qed.

(** The same file read with a non-empty selection whose indices fit the
    width: as soon as the table has two rows and is accepted, [readfp]
    raises a [ValueError]. *)
Theorem numeric_table_selection_raises (self : loader) (file : string)
    (w : nat) (j : Z) (cols : list Z) :
  usecols self = Some (j :: cols) ->
  mincols (usecols self) <= Z.of_nat w ->
  Forall (fun l => List.length (Py.split_ws l) = w /\
                   Forall (fun x => is_Some (pyfloat x)) (Py.split_ws l))
         (Py.readlines file) ->
  let n := List.length (Py.readlines file) in
  (2 <= n)%nat -> minrows self <= Z.of_nat n ->
  readfp pyfloat uninit self file = Raise ValueError.
Proof.
  intros Hu Hmc Hall n Hn Hmin.
  assert (Hw : (1 <= w)%nat).
  { rewrite Hu in Hmc. cbn [mincols] in Hmc. lia. }
  assert (Hne : Py.readlines file <> []).
  { intros E. unfold n in Hn. rewrite E in Hn. simpl in Hn. lia. }
  destruct (table_classified self file w Hne Hw Hall)
    as (lr & lw & r0 & r1 & Hc & Hlrn & Hnpos & Hok & Hnf & Hvals
        & Hr0 & Hidx0 & Hbeg & Hw0 & Hr1 & Hidx1 & Hend).
  fold n in Hlrn, Hnpos, Hvals, Hr1, Hidx1, Hend.
  unfold readfp, _findDataBlocks. rewrite Hc. cbn [mbind result_bind].
  rewrite (scan_boundaries_uniform self lr w); try assumption.
  2: { intros E. rewrite E in Hlrn. simpl in Hlrn. lia. }
  cbn [mbind result_bind lr1 begend]. rewrite Hlrn.
  replace (minrows self <=? Z.of_nat n) with true
    by (symmetry; apply Z.leb_le; exact Hmin).
  cbn [materialize].
  pose proof (index_nonneg lr 0 r0 Hr0) as Hi0.
  change (Z.of_nat 0) with 0 in Hi0. rewrite Hi0.
  replace (Z.of_nat n - 1) with (Z.of_nat (n - 1)) by lia.
  rewrite (index_nonneg lr (n - 1) r1 Hr1).
  cbn [mbind result_bind]. rewrite Hu.
  assert (H1 : (1 <= nf r0)%nat) by (rewrite Hw0; exact Hw).
  assert (H2 : Z.of_nat (n - 1) - 0 = Z.of_nat n - 1) by lia.
  assert (H3 : (nw0 r0 + n * nf r0 <= nw1 r1)%nat)
    by (rewrite Hbeg, Hw0, Hend; lia).
  assert (H4 : (nw1 r1 <= List.length (List.map value lw))%nat)
    by (rewrite Hend, Hvals, length_map, length_seq; lia).
  unfold extract.
  replace (Z.of_nat (n - 1) - 0 <? 0) with false by (symmetry; apply Z.ltb_ge; lia).
  replace (Z.to_nat (Z.of_nat (n - 1) - 0)) with (n - 1)%nat by lia.
  rewrite (select_cols_raises j cols (List.map value lw) r0 r1 n H1 Hn H3 H4).
  reflexivity.
Qed.

End TableResult.

Lemma numeric_table_witness :
  readfp_int {| TextDataLoader.minrows := 2; TextDataLoader.usecols := None |}
    ("1 2" ++ nl ++ "3 4" ++ nl ++ "5 6" ++ nl)%string
  = Ok [("", [[0; 0]; [0; 0]; [0; 0]])].
Proof.
  apply (numeric_table IntFloat.float (fun _ => 0)
           {| TextDataLoader.minrows := 2; TextDataLoader.usecols := None |}
           ("1 2" ++ nl ++ "3 4" ++ nl ++ "5 6" ++ nl)%string 2).
  - reflexivity.
  - discriminate.
  - lia.
  - repeat constructor; eexists; reflexivity.
Defined.

Lemma numeric_table_selection_raises_witness :
  readfp_int {| TextDataLoader.minrows := 2; TextDataLoader.usecols := Some [1; -1] |}
    ("1 2" ++ nl ++ "3 4" ++ nl ++ "5 6" ++ nl)%string
  = Raise ValueError.
Proof.
  apply (numeric_table_selection_raises IntFloat.float (fun _ => 0)
           {| TextDataLoader.minrows := 2; TextDataLoader.usecols := Some [1; -1] |}
           ("1 2" ++ nl ++ "3 4" ++ nl ++ "5 6" ++ nl)%string 2 1 [-1]).
  - reflexivity.
  - simpl. lia.
  - repeat constructor; eexists; reflexivity.
  - simpl. lia.
  - simpl. lia.
Defined.

Lemma line_words_range_witness :
  exists r,
    TextDataLoader.linerecs
      (List.map Py.split_ws (Py.readlines ("a b" ++ nl ++ "1 2 3" ++ nl))) !! 1%nat
    = Some r /\
    TextDataLoader.idx r = 1%nat /\ TextDataLoader.nf r = 3%nat.
Proof.
  destruct (line_words_range ("a b" ++ nl ++ "1 2 3" ++ nl)%string 1
              ("1 2 3" ++ nl)%string eq_refl) as (r & H1 & H2 & H3 & _).
  exists r. split; [exact H1|]. split; [exact H2 | exact H3].
Defined.

Lemma datasets_unwritten_witness :
  Forall (fun e : string * list (list Z) =>
            Forall (Forall (unwritten (fun _ : nat => 0))) e.2)
    [("", [[0; 0]; [0; 0]])].
Proof.
  apply (datasets_unwritten IntFloat.float (fun _ => 0)
           {| TextDataLoader.minrows := 2; TextDataLoader.usecols := None |}
           (Py.readlines ("1 2" ++ nl ++ "3 4" ++ nl))).
  vm_compute. reflexivity.
Defined.
